(** * Website uptime monitor: check, diff, notify, persist

    A shallow embedding of [website_monitor.py] and
    [website_monitor_config.py].  The two scripts share every function but
    differ in three places, selected here by a [Variant]: where the
    configuration comes from, the [User-Agent] header of the check request,
    and the summary message sent after the per-site messages.

    Python [str] values are sequences of code points; effects (network,
    clock, log, state file) are threaded through a state-and-exception
    monad over an explicit [World]. *)

From Stdlib Require Import ZArith String Ascii Bool.
From stdpp Require Import base list pretty.

Local Open Scope Z_scope.

(** ** Python strings *)

(** A [str] is a list of Unicode code points, so that slicing ([s[:100]])
    and containment (["x" in s]) count characters as Python does. *)
Definition pystr : Type := list N.

Fixpoint lit (s : string) : pystr :=
  match s with
  | EmptyString => []
  | String a s' => N_of_ascii a :: lit s'
  end.

(** [str(n)] for an [int]. *)
Definition str_of_int (n : Z) : pystr := lit (pretty n).

(** [str(c)] for an [Optional[int]]. *)
Definition str_of_opt_int (c : option Z) : pystr :=
  match c with
  | Some n => str_of_int n
  | None => lit "None"
  end.

Fixpoint startswith (s prefix : pystr) {struct prefix} : bool :=
  match prefix, s with
  | [], _ => true
  | _ :: _, [] => false
  | p :: prefix', c :: s' => if N.eqb p c then startswith s' prefix' else false
  end.

(** [needle in s] on strings: some suffix of [s] starts with [needle]. *)
Fixpoint contains (needle s : pystr) : bool :=
  startswith s needle ||
  match s with
  | [] => false
  | _ :: s' => contains needle s'
  end.

(** ** Python dictionaries

    A [dict] keeps its keys in insertion order (the summary message walks
    [current_state.items()]), so it is an association list whose keys are
    kept distinct by [dict_set]. *)
Definition pydict : Type := list (pystr * bool).

Fixpoint dict_lookup (d : pydict) (k : pystr) : option bool :=
  match d with
  | [] => None
  | (k', v) :: d' => if decide (k = k') then Some v else dict_lookup d' k
  end.

(** [d.get(k, default)] *)
Definition dict_get (d : pydict) (k : pystr) (default : bool) : bool :=
  match dict_lookup d k with
  | Some v => v
  | None => default
  end.

(** [d[k] = v]: overwrite in place, or append a new key. *)
Fixpoint dict_set (d : pydict) (k : pystr) (v : bool) : pydict :=
  match d with
  | [] => [(k, v)]
  | (k', v') :: d' =>
      if decide (k = k') then (k', v) :: d' else (k', v') :: dict_set d' k v
  end.

Definition dict_keys (d : pydict) : list pystr := d.*1.

(** ** Exceptions and results *)

(** The classes the [except] clauses of the scripts tell apart:
    [requests.exceptions.Timeout] is a [RequestException], which is an
    [Exception].  Everything a library call raises is an [Exception]. *)
Inductive ExnClass : Type :=
  | Timeout
  | RequestException
  | Exception.

Definition issubclass (c d : ExnClass) : bool :=
  match c, d with
  | Timeout, _ => true
  | RequestException, Timeout => false
  | RequestException, _ => true
  | Exception, Exception => true
  | Exception, _ => false
  end.

Record Exn : Type := mkExn {
  exn_class : ExnClass;
  exn_str : pystr            (* str(e) *)
}.

Definition isinstance (e : Exn) (c : ExnClass) : bool :=
  issubclass (exn_class e) c.

Inductive result (A : Type) : Type :=
  | Ret (a : A)
  | Raise (e : Exn).
Arguments Ret {A} a.
Arguments Raise {A} e.

(** ** The world *)

Record Response : Type := mkResponse {
  status_code : Z;
  text : pystr
}.

(** The state file on disk: missing, present but failing to open or to
    parse with exception [e], or holding the JSON object [d] of booleans
    that [json.load] returns ([load_state] is annotated [Dict[str, bool]]). *)
Inductive FileState : Type :=
  | Absent
  | Unreadable (e : Exn)
  | Holds (d : pydict).

(** How writing the state file ends: [open(..., 'w')] raises and the file
    is untouched, or [json.dump] raises after the file was truncated (a
    later read of the partial text fails with [later]), or all is written. *)
Inductive WriteOutcome : Type :=
  | WriteOk
  | OpenFails (e : Exn)
  | DumpFails (e later : Exn).

Inductive Level : Type := INFO | WARNING | ERROR.

Inductive Event : Type :=
  | Log (level : Level) (msg : pystr)
  | Get (url : pystr) (timeout : Z) (allow_redirects : bool)
        (headers : list (pystr * pystr))
  | Post (url chat_id message parse_mode : pystr) (timeout : Z)
  | Sleep (seconds : Z).

Record World : Type := mkWorld {
  state_file : FileState;
  http_get : nat -> result Response;   (* answer to the n-th requests.get *)
  http_post : nat -> result Response;  (* answer to the n-th requests.post *)
  file_write : WriteOutcome;           (* fate of a write of the state file *)
  clock : nat -> pystr;                (* n-th datetime.now().strftime(...) *)
  gets_done : nat;
  posts_done : nat;
  clock_reads : nat;
  trace : list Event                   (* oldest event first *)
}.

(** ** The monad: state plus exceptions *)

Definition M (A : Type) : Type := World -> result A * World.

Definition ret {A} (a : A) : M A := fun w => (Ret a, w).

Definition raise {A} (e : Exn) : M A := fun w => (Raise e, w).

Definition bind {A B} (m : M A) (k : A -> M B) : M B :=
  fun w =>
    match m w with
    | (Ret a, w') => k a w'
    | (Raise e, w') => (Raise e, w')
    end.

(** [try: body except ...: handler e]; a handler re-raises what no clause
    of it matches. *)
Definition try_except {A} (body : M A) (handler : Exn -> M A) : M A :=
  fun w =>
    match body w with
    | (Ret a, w') => (Ret a, w')
    | (Raise e, w') => handler e w'
    end.

Notation "x <~ m ; k" := (bind m (fun x => k))
  (at level 100, m at next level, right associativity).
Notation "m ;; k" := (bind m (fun _ => k))
  (at level 100, right associativity).

Definition emit (ev : Event) : M unit :=
  fun w =>
    (Ret tt,
     mkWorld (state_file w) (http_get w) (http_post w) (file_write w)
             (clock w) (gets_done w) (posts_done w) (clock_reads w)
             (trace w ++ [ev])).

Definition logger (level : Level) (msg : pystr) : M unit :=
  emit (Log level msg).

(** [time.sleep(n)] *)
Definition sleep (n : Z) : M unit := emit (Sleep n).

(** [requests.get(url, timeout=..., allow_redirects=..., headers=...)] *)
Definition requests_get (url : pystr) (timeout : Z) (allow_redirects : bool)
    (headers : list (pystr * pystr)) : M Response :=
  fun w =>
    (http_get w (gets_done w),
     mkWorld (state_file w) (http_get w) (http_post w) (file_write w)
             (clock w) (S (gets_done w)) (posts_done w) (clock_reads w)
             (trace w ++ [Get url timeout allow_redirects headers])).

(** [requests.post(url, json={chat_id, text, parse_mode}, timeout=...)] *)
Definition requests_post (url chat_id message parse_mode : pystr)
    (timeout : Z) : M Response :=
  fun w =>
    (http_post w (posts_done w),
     mkWorld (state_file w) (http_get w) (http_post w) (file_write w)
             (clock w) (gets_done w) (S (posts_done w)) (clock_reads w)
             (trace w ++ [Post url chat_id message parse_mode timeout])).

(** [datetime.now().strftime("%Y-%m-%d %H:%M:%S")] *)
Definition now_strftime : M pystr :=
  fun w =>
    (Ret (clock w (clock_reads w)),
     mkWorld (state_file w) (http_get w) (http_post w) (file_write w)
             (clock w) (gets_done w) (posts_done w) (S (clock_reads w))
             (trace w)).

(** [os.path.exists(STATE_FILE)] *)
Definition path_exists : M bool :=
  fun w =>
    (Ret match state_file w with Absent => false | _ => true end, w).

Definition FileNotFoundError : Exn :=
  mkExn Exception (lit "[Errno 2] No such file or directory").

(** [with open(STATE_FILE, 'r') as f: json.load(f)] *)
Definition read_json : M pydict :=
  fun w =>
    match state_file w with
    | Absent => (Raise FileNotFoundError, w)
    | Unreadable e => (Raise e, w)
    | Holds d => (Ret d, w)
    end.

Definition set_state_file (f : FileState) (w : World) : World :=
  mkWorld f (http_get w) (http_post w) (file_write w)
          (clock w) (gets_done w) (posts_done w) (clock_reads w) (trace w).

(** [with open(STATE_FILE, 'w') as f: json.dump(state, f, indent=2)] *)
Definition write_json (state : pydict) : M unit :=
  fun w =>
    match file_write w with
    | WriteOk => (Ret tt, set_state_file (Holds state) w)
    | OpenFails e => (Raise e, w)
    | DumpFails e later => (Raise e, set_state_file (Unreadable later) w)
    end.

(** ** Configuration

    [website_monitor.py] fixes these as module constants;
    [website_monitor_config.py] reads them once from [config.json]. *)
Record Config : Type := mkConfig {
  TELEGRAM_BOT_TOKEN : pystr;
  TELEGRAM_CHAT_ID : pystr;
  WEBSITES : list pystr;
  TIMEOUT_SECONDS : Z
}.

Inductive Variant : Type :=
  | Hardcoded     (* website_monitor.py *)
  | Configured.   (* website_monitor_config.py *)

(** The constants of [website_monitor.py] that the checks depend on. *)
Definition WEBSITES_hardcoded : list pystr :=
  [ lit "https://mandarini.wedding"; lit "https://ori.wedding";
    lit "https://sami.wedding"; lit "https://vow.legal";
    lit "https://stas.video" ].

Definition TIMEOUT_SECONDS_hardcoded : Z := 30.

Definition nl : pystr := [10%N].

(** (is_up, error_message, status_code) *)
Definition CheckResult : Type := bool * pystr * option Z.

(** (website, is_up, error_msg, status_code) *)
Definition ChangeRecord : Type := pystr * bool * pystr * option Z.

Definition up_or_down (is_up : bool) : pystr :=
  if is_up then lit "UP" else lit "DOWN".

(** ** The scripts *)

Section Monitor.

Variable variant : Variant.
Variable cfg : Config.

Definition load_state : M pydict :=
  present <~ path_exists;
  if present then
    try_except read_json
      (fun e =>
         if isinstance e Exception then
           logger ERROR (lit "Error loading state file: " ++ exn_str e);;
           ret []
         else raise e)
  else ret [].

Definition save_state (state : pydict) : M unit :=
  try_except (write_json state)
    (fun e =>
       if isinstance e Exception then
         logger ERROR (lit "Error saving state file: " ++ exn_str e)
       else raise e).

Definition headers : list (pystr * pystr) :=
  match variant with
  | Hardcoded => []
  | Configured =>
      [ (lit "User-Agent",
         lit "Mozilla/5.0 (Windows NT 10.0; Win64; x64) AppleWebKit/537.36 (KHTML, like Gecko) Chrome/91.0.4472.124 Safari/537.36") ]
  end.

Definition check_website (url : pystr) : M CheckResult :=
  try_except
    (response <~ requests_get url (TIMEOUT_SECONDS cfg) true headers;
     let status_code := status_code response in
     if status_code =? 200 then
       ret (true, lit "OK", Some status_code)
     else
       ret (false, lit "HTTP " ++ str_of_int status_code, Some status_code))
    (fun e =>
       if isinstance e Timeout then
         ret (false,
              lit "Timeout after " ++ str_of_int (TIMEOUT_SECONDS cfg)
                ++ lit "s",
              None)
       else if isinstance e RequestException then
         let error_msg := exn_str e in
         if contains (lit "ConnectionError") error_msg then
           ret (false, lit "Connection failed", None)
         else if contains (lit "SSLError") error_msg then
           ret (false, lit "SSL error", None)
         else
           ret (false, lit "Error: " ++ take 100 error_msg, None)
       else if isinstance e Exception then
         ret (false, lit "Unexpected error: " ++ take 100 (exn_str e), None)
       else raise e).

Definition send_telegram_message (message : pystr) : M bool :=
  let url :=
    lit "https://api.telegram.org/bot" ++ TELEGRAM_BOT_TOKEN cfg
      ++ lit "/sendMessage" in
  try_except
    (response <~ requests_post url (TELEGRAM_CHAT_ID cfg) message
                   (lit "HTML") 10;
     if status_code response =? 200 then
       logger INFO (lit "Telegram message sent successfully");;
       ret true
     else
       logger ERROR
         (lit "Failed to send Telegram message: "
            ++ str_of_int (status_code response) ++ lit " - "
            ++ text response);;
       ret false)
    (fun e =>
       if isinstance e Exception then
         logger ERROR (lit "Error sending Telegram message: " ++ exn_str e);;
         ret false
       else raise e).

Definition emoji_up : pystr :=
  match variant with
  | Hardcoded => [0xe2; 0x153; 0x2026]%N
  | Configured => [0x2705]%N
  end.

Definition emoji_down : pystr :=
  match variant with
  | Hardcoded => [0xf0; 0x178; 0x201d; 0xb4]%N
  | Configured => [0x1f534]%N
  end.

Definition format_status_message (url : pystr) (is_up : bool)
    (error_msg : pystr) (status_code : option Z) : M pystr :=
  timestamp <~ now_strftime;
  let '(emoji, status, details) :=
    if is_up then
      (emoji_up, lit "UP", lit "Status code: " ++ str_of_opt_int status_code)
    else
      (emoji_down, lit "DOWN", lit "Error: " ++ error_msg) in
  let message := emoji ++ lit " <b>" ++ url ++ lit "</b>" ++ nl in
  let message := message ++ lit "Status: <b>" ++ status ++ lit "</b>" ++ nl in
  let message := message ++ details ++ nl in
  let message := message ++ lit "Time: " ++ timestamp in
  ret message.

(** [for site in sites: message += f"  • {site}\n"] *)
Fixpoint bullet_lines (sites : list pystr) (message : pystr) : pystr :=
  match sites with
  | [] => message
  | site :: rest =>
      bullet_lines rest
        (message ++ lit "  " ++ [0x2022%N] ++ lit " " ++ site ++ nl)
  end.

(** Only [website_monitor_config.py] has this function. *)
Definition format_summary_message (current_state : pydict) : M pystr :=
  timestamp <~ now_strftime;
  let message :=
    [0x1f4ca%N] ++ lit " <b>Current Status Summary</b>" ++ nl ++ nl in
  let up_sites := (filter (fun kv => snd kv = true) current_state).*1 in
  let down_sites := (filter (fun kv => snd kv = false) current_state).*1 in
  let message :=
    match up_sites with
    | [] => message
    | _ :: _ =>
        bullet_lines up_sites
          (message ++ [0x2705%N] ++ lit " <b>UP:</b>" ++ nl) ++ nl
    end in
  let message :=
    match down_sites with
    | [] => message
    | _ :: _ =>
        bullet_lines down_sites
          (message ++ [0x1f534%N] ++ lit " <b>DOWN:</b>" ++ nl) ++ nl
    end in
  let message := message ++ lit "Time: " ++ timestamp in
  ret message.

(** The first loop of [main], over the rest of [WEBSITES], with the two
    locals it updates. *)
Fixpoint check_loop (previous_state : pydict) (websites : list pystr)
    (current_state : pydict) (status_changed : list ChangeRecord)
    : M (pydict * list ChangeRecord) :=
  match websites with
  | [] => ret (current_state, status_changed)
  | website :: rest =>
      logger INFO (lit "Checking " ++ website);;
      checked <~ check_website website;
      let '(is_up, error_msg, status_code) := checked in
      let current_state := dict_set current_state website is_up in
      let was_up := dict_get previous_state website true in
      status_changed <~
        (if negb (eqb is_up was_up) then
           logger WARNING
             (lit "Status change detected for " ++ website ++ lit ": "
                ++ up_or_down is_up);;
           ret (status_changed
                  ++ [(website, is_up, error_msg, status_code)])
         else ret status_changed);
      logger INFO
        (website ++ lit ": " ++ up_or_down is_up ++ lit " - " ++ error_msg);;
      check_loop previous_state rest current_state status_changed
  end.

(** The second loop of [main], over the rest of [status_changed]. *)
Fixpoint send_loop (status_changed : list ChangeRecord) : M unit :=
  match status_changed with
  | [] => ret tt
  | (website, is_up, error_msg, status_code) :: rest =>
      message <~ format_status_message website is_up error_msg status_code;
      _ <~ send_telegram_message message;
      sleep 1;;
      send_loop rest
  end.

Definition main : M unit :=
  logger INFO (lit "Starting website monitoring check");;
  previous_state <~ load_state;
  built <~ check_loop previous_state (WEBSITES cfg) [] [];
  let '(current_state, status_changed) := built in
  (match status_changed with
   | [] => ret tt
   | _ :: _ =>
       send_loop status_changed;;
       match variant with
       | Hardcoded => ret tt
       | Configured =>
           summary_message <~ format_summary_message current_state;
           _ <~ send_telegram_message summary_message;
           ret tt
       end
   end);;
  save_state current_state;;
  logger INFO
    (lit "Check completed. "
       ++ str_of_int (Z.of_nat (length status_changed))
       ++ lit " status changes detected.").

End Monitor.

Arguments lit : simpl never.
Arguments str_of_int : simpl never.

(** ** Observations used to state the properties *)

(** The statements of [main] up to the end of its first loop, returning the
    locals [current_state] and [status_changed]. *)
Definition main_loop (variant : Variant) (cfg : Config)
    : M (pydict * list ChangeRecord) :=
  logger INFO (lit "Starting website monitoring check");;
  previous_state <~ load_state;
  check_loop variant cfg previous_state (WEBSITES cfg) [] [].

(** The statements of [main] after its first loop. *)
Definition main_tail (variant : Variant) (cfg : Config)
    (current_state : pydict) (status_changed : list ChangeRecord) : M unit :=
  (match status_changed with
   | [] => ret tt
   | _ :: _ =>
       send_loop variant cfg status_changed;;
       match variant with
       | Hardcoded => ret tt
       | Configured =>
           summary_message <~ format_summary_message current_state;
           _ <~ send_telegram_message cfg summary_message;
           ret tt
       end
   end);;
  save_state current_state;;
  logger INFO
    (lit "Check completed. "
       ++ str_of_int (Z.of_nat (length status_changed))
       ++ lit " status changes detected.").

(** A world in which every GET is answered by [reply]. *)
Definition world_replying (reply : result Response) : World :=
  mkWorld Absent (fun _ => reply) (fun _ => reply) WriteOk (fun _ => [])
          0 0 0 [].

(** The classification [check_website] gives to a reply: its result in a
    world that answers with that reply. *)
Definition classify (variant : Variant) (cfg : Config)
    (reply : result Response) : CheckResult :=
  match fst (check_website variant cfg [] (world_replying reply)) with
  | Ret checked => checked
  | Raise _ => (false, [], None)
  end.

(** A world whose clock reads [timestamp]. *)
Definition world_at (timestamp : pystr) : World :=
  mkWorld Absent (fun _ => Raise FileNotFoundError)
          (fun _ => Raise FileNotFoundError) WriteOk (fun _ => timestamp)
          0 0 0 [].

(** The per-site message of a change record formatted at [timestamp]. *)
Definition status_message (variant : Variant) (change : ChangeRecord)
    (timestamp : pystr) : pystr :=
  let '(website, is_up, error_msg, status_code) := change in
  match fst (format_status_message variant website is_up error_msg
               status_code (world_at timestamp)) with
  | Ret message => message
  | Raise _ => []
  end.

(** The summary message of a state formatted at [timestamp]. *)
Definition summary_message (current_state : pydict) (timestamp : pystr)
    : pystr :=
  match fst (format_summary_message current_state (world_at timestamp)) with
  | Ret message => message
  | Raise _ => []
  end.

(** The texts handed to the notification sink, oldest first. *)
Fixpoint posted (events : list Event) : list pystr :=
  match events with
  | [] => []
  | Post _ _ message _ _ :: rest => message :: posted rest
  | _ :: rest => posted rest
  end.

(** Log entries by which [send_telegram_message] reports a failed send. *)
Definition is_send_error (ev : Event) : bool :=
  match ev with
  | Log ERROR msg =>
      startswith msg (lit "Failed to send Telegram message: ")
      || startswith msg (lit "Error sending Telegram message: ")
  | _ => false
  end.

Definition send_errors (events : list Event) : nat :=
  length (filter (fun ev => is_send_error ev = true) events).

(** A send is delivered when the webhook answers 200. *)
Definition delivered (reply : result Response) : bool :=
  match reply with
  | Ret response => status_code response =? 200
  | Raise _ => false
  end.

(** The check results of the targets [websites], the first of which is
    answered by the [n]-th GET. *)
Fixpoint checks_from (variant : Variant) (cfg : Config)
    (get : nat -> result Response) (n : nat) (websites : list pystr)
    : list (pystr * CheckResult) :=
  match websites with
  | [] => []
  | website :: rest =>
      (website, classify variant cfg (get n))
        :: checks_from variant cfg get (S n) rest
  end.

(** What the first loop makes of [current_state] given the check results. *)
Fixpoint built_state (current_state : pydict)
    (checks : list (pystr * CheckResult)) : pydict :=
  match checks with
  | [] => current_state
  | (website, (is_up, _, _)) :: rest =>
      built_state (dict_set current_state website is_up) rest
  end.

(** The change records the first loop appends given the check results. *)
Fixpoint detected (previous_state : pydict)
    (checks : list (pystr * CheckResult)) : list ChangeRecord :=
  match checks with
  | [] => []
  | (website, (is_up, error_msg, status_code)) :: rest =>
      (if negb (eqb is_up (dict_get previous_state website true))
       then [(website, is_up, error_msg, status_code)] else [])
        ++ detected previous_state rest
  end.

(** What [load_state] returns for a state file. *)
Definition loaded (f : FileState) : pydict :=
  match f with
  | Holds d => d
  | _ => []
  end.

(** The state file after [save_state state]. *)
Definition saved (outcome : WriteOutcome) (state : pydict) (f : FileState)
    : FileState :=
  match outcome with
  | WriteOk => Holds state
  | OpenFails _ => f
  | DumpFails _ later => Unreadable later
  end.

Arguments classify : simpl never.
Arguments status_message : simpl never.
Arguments summary_message : simpl never.

(** The oracles of the world, which no step of the scripts changes. *)
Definition same_oracles (w w' : World) : Prop :=
  http_get w' = http_get w /\ http_post w' = http_post w
  /\ file_write w' = file_write w /\ clock w' = clock w.

(** ** What a run does, as functions of the oracles *)

(** Steps that neither post, nor read the clock, nor report a failed send. *)
Definition quiet (w w' : World) : Prop :=
  same_oracles w w'
  /\ posts_done w' = posts_done w
  /\ clock_reads w' = clock_reads w
  /\ posted (trace w') = posted (trace w)
  /\ send_errors (trace w') = send_errors (trace w).

(** The two events of one call of [send_telegram_message]. *)
Definition send_events (cfg : Config) (message : pystr)
    (reply : result Response) : list Event :=
  [ Post (lit "https://api.telegram.org/bot" ++ TELEGRAM_BOT_TOKEN cfg
            ++ lit "/sendMessage")
         (TELEGRAM_CHAT_ID cfg) message (lit "HTML") 10;
    match reply with
    | Ret response =>
        if status_code response =? 200 then
          Log INFO (lit "Telegram message sent successfully")
        else
          Log ERROR
            (lit "Failed to send Telegram message: "
               ++ str_of_int (status_code response) ++ lit " - "
               ++ text response)
    | Raise e => Log ERROR (lit "Error sending Telegram message: " ++ exn_str e)
    end ].

(** The per-site messages of the change records, the first of which is
    stamped with the [n]-th reading of the clock. *)
Fixpoint messages_from (v : Variant) (clock : nat -> pystr) (n : nat)
    (status_changed : list ChangeRecord) : list pystr :=
  match status_changed with
  | [] => []
  | change :: rest =>
      status_message v change (clock n) :: messages_from v clock (S n) rest
  end.

(** How many of the [k] sends starting with the [n]-th are not delivered. *)
Fixpoint failures (post : nat -> result Response) (n k : nat) : nat :=
  match k with
  | O => O
  | S k' => ((if delivered (post n) then 0 else 1) + failures post (S n) k')%nat
  end.

(** The check results of a run started in [w]. *)
Definition checks_of (v : Variant) (cfg : Config) (w : World)
    : list (pystr * CheckResult) :=
  checks_from v cfg (http_get w) (gets_done w) (WEBSITES cfg).

(** The summary message, sent by [website_monitor_config.py] when at least
    one change was detected. *)
Definition summary_part (v : Variant) (current_state : pydict)
    (status_changed : list ChangeRecord) (timestamp : pystr) : list pystr :=
  match v, status_changed with
  | Configured, _ :: _ => [summary_message current_state timestamp]
  | _, _ => []
  end.

(** All the texts a run started in [w] posts for the changes [status_changed]. *)
Definition notices (v : Variant) (w : World) (current_state : pydict)
    (status_changed : list ChangeRecord) : list pystr :=
  messages_from v (clock w) (clock_reads w) status_changed
    ++ summary_part v current_state status_changed
         (clock w (clock_reads w + length status_changed)%nat).

(** ** The events of a run *)

Definition is_get (ev : Event) : bool :=
  match ev with Get _ _ _ _ => true | _ => false end.

Definition is_post (ev : Event) : bool :=
  match ev with Post _ _ _ _ _ => true | _ => false end.

Definition is_sleep (ev : Event) : bool :=
  match ev with Sleep _ => true | _ => false end.

(** The GET requests, the POST requests and the sleeps of a trace. *)
Definition gets_of (events : list Event) : list Event :=
  filter (fun ev => is_get ev = true) events.

Definition posts_of (events : list Event) : list Event :=
  filter (fun ev => is_post ev = true) events.

Definition sleeps_of (events : list Event) : list Event :=
  filter (fun ev => is_sleep ev = true) events.

(** The POST requests and the sleeps of a trace, in the order they were
    made. *)
Definition calls_of (events : list Event) : list Event :=
  filter (fun ev => is_post ev || is_sleep ev = true) events.

(** The messages logged at the levels ERROR and WARNING. *)
Fixpoint errors_of (events : list Event) : list pystr :=
  match events with
  | [] => []
  | Log ERROR msg :: rest => msg :: errors_of rest
  | _ :: rest => errors_of rest
  end.

Fixpoint warnings_of (events : list Event) : list pystr :=
  match events with
  | [] => []
  | Log WARNING msg :: rest => msg :: warnings_of rest
  | _ :: rest => warnings_of rest
  end.

(** The events of one round of the first loop, for a target and the result
    of its check. *)
Definition check_events (v : Variant) (cfg : Config) (previous_state : pydict)
    (website : pystr) (checked : CheckResult) : list Event :=
  let '(is_up, error_msg, _) := checked in
  [ Log INFO (lit "Checking " ++ website);
    Get website (TIMEOUT_SECONDS cfg) true (headers v) ]
    ++ (if negb (eqb is_up (dict_get previous_state website true)) then
          [ Log WARNING
              (lit "Status change detected for " ++ website ++ lit ": "
                 ++ up_or_down is_up) ]
        else [])
    ++ [ Log INFO
           (website ++ lit ": " ++ up_or_down is_up ++ lit " - " ++ error_msg) ].

Fixpoint loop_events (v : Variant) (cfg : Config) (previous_state : pydict)
    (checks : list (pystr * CheckResult)) : list Event :=
  match checks with
  | [] => []
  | (website, checked) :: rest =>
      check_events v cfg previous_state website checked
        ++ loop_events v cfg previous_state rest
  end.

(** The events of the second loop: the [nc]-th reading of the clock stamps
    the first message, which the [np]-th answer of the webhook answers. *)
Fixpoint send_loop_events (v : Variant) (cfg : Config) (clock : nat -> pystr)
    (post : nat -> result Response) (nc np : nat)
    (status_changed : list ChangeRecord) : list Event :=
  match status_changed with
  | [] => []
  | change :: rest =>
      send_events cfg (status_message v change (clock nc)) (post np)
        ++ [Sleep 1]
        ++ send_loop_events v cfg clock post (S nc) (S np) rest
  end.

(** The events of the summary of [website_monitor_config.py]. *)
Definition summary_events (v : Variant) (cfg : Config) (w : World)
    (current_state : pydict) (status_changed : list ChangeRecord)
    : list Event :=
  match v, status_changed with
  | Configured, _ :: _ =>
      send_events cfg
        (summary_message current_state
           (clock w (clock_reads w + length status_changed)%nat))
        (http_post w (posts_done w + length status_changed)%nat)
  | _, _ => []
  end.

Definition load_events (f : FileState) : list Event :=
  match f with
  | Unreadable e => [Log ERROR (lit "Error loading state file: " ++ exn_str e)]
  | _ => []
  end.

Definition save_events (outcome : WriteOutcome) : list Event :=
  match outcome with
  | WriteOk => []
  | OpenFails e => [Log ERROR (lit "Error saving state file: " ++ exn_str e)]
  | DumpFails e _ => [Log ERROR (lit "Error saving state file: " ++ exn_str e)]
  end.

(** All the events of a run started in [w], oldest first. *)
Definition run_events (v : Variant) (cfg : Config) (w : World) : list Event :=
  let previous_state := loaded (state_file w) in
  let checks := checks_of v cfg w in
  let current_state := built_state [] checks in
  let status_changed := detected previous_state checks in
  [Log INFO (lit "Starting website monitoring check")]
    ++ load_events (state_file w)
    ++ loop_events v cfg previous_state checks
    ++ send_loop_events v cfg (clock w) (http_post w) (clock_reads w)
         (posts_done w) status_changed
    ++ summary_events v cfg w current_state status_changed
    ++ save_events (file_write w)
    ++ [Log INFO
          (lit "Check completed. "
             ++ str_of_int (Z.of_nat (length status_changed))
             ++ lit " status changes detected.")].

(** The warning of the first loop for a change record. *)
Definition change_warning (change : ChangeRecord) : pystr :=
  lit "Status change detected for " ++ change.1.1.1 ++ lit ": "
    ++ up_or_down change.1.1.2.

(** The request [send_telegram_message] makes for a message. *)
Definition post_request (cfg : Config) (message : pystr) : Event :=
  Post (lit "https://api.telegram.org/bot" ++ TELEGRAM_BOT_TOKEN cfg
          ++ lit "/sendMessage")
       (TELEGRAM_CHAT_ID cfg) message (lit "HTML") 10.

(** The line of a site in the summary. *)
Definition bullet (site : pystr) : pystr :=
  lit "  " ++ [0x2022%N] ++ lit " " ++ site ++ nl.

(** ** Example worlds *)

Definition example_cfg : Config :=
  mkConfig (lit "TOKEN") (lit "42") [lit "https://a.test"] 30.

(** A fresh process in which every GET is answered by [get], every POST by
    [post], the state file is [f] and a write of it ends as [outcome]. *)
Definition example_world (get post : result Response) (f : FileState)
    (outcome : WriteOutcome) : World :=
  mkWorld f (fun _ => get) (fun _ => post) outcome
          (fun _ => lit "2024-01-01 00:00:00") 0 0 0 [].

Definition ok_200 : result Response := Ret (mkResponse 200 (lit "ok")).
Definition error_500 : result Response := Ret (mkResponse 500 (lit "oops")).
Definition no_content_204 : result Response := Ret (mkResponse 204 []).
Definition read_timeout : result Response :=
  Raise (mkExn Timeout (lit "Read timed out. (read timeout=30)")).

(** [website_monitor.py] with its own targets and timeout. *)
Definition website_monitor_cfg : Config :=
  mkConfig (lit "TOKEN") (lit "42") WEBSITES_hardcoded
           TIMEOUT_SECONDS_hardcoded.
Definition read_only : Exn :=
  mkExn Exception (lit "[Errno 30] Read-only file system").

(** A target listed twice, and a network that answers the first GET of a
    run with 500 and every later one with 200. *)
Definition repeated_cfg : Config :=
  mkConfig (lit "TOKEN") (lit "42")
           [lit "https://a.test"; lit "https://b.test"; lit "https://a.test"] 30.

Definition down_then_up (n : nat) : result Response :=
  match n with
  | O => error_500
  | S _ => ok_200
  end.

Definition example_world_by (get : nat -> result Response)
    (post : result Response) (f : FileState) (outcome : WriteOutcome)
    : World :=
  mkWorld f get (fun _ => post) outcome
          (fun _ => lit "2024-01-01 00:00:00") 0 0 0 [].

(** ** Basic facts *)

Lemma isinstance_Exception (e : Exn) : isinstance e Exception = true.
Proof. destruct e as [[] s]; reflexivity. Qed.

Lemma same_oracles_refl (w : World) : same_oracles w w.
Proof. repeat split. Qed.

Lemma same_oracles_trans (w1 w2 w3 : World) :
  same_oracles w1 w2 -> same_oracles w2 w3 -> same_oracles w1 w3.
Proof.
  intros (A1 & A2 & A3 & A4) (B1 & B2 & B3 & B4).
  repeat split; congruence.
Qed.

Lemma posted_app (t1 t2 : list Event) : posted (t1 ++ t2) = posted t1 ++ posted t2.
Proof.
  induction t1 as [|ev t1 IH]; [reflexivity|].
  destruct ev; simpl; rewrite ?IH; reflexivity.
Qed.

Lemma send_errors_app (t1 t2 : list Event) :
  send_errors (t1 ++ t2) = (send_errors t1 + send_errors t2)%nat.
Proof. unfold send_errors. rewrite filter_app, length_app. reflexivity. Qed.

Lemma main_split (v : Variant) (cfg : Config) (w : World) :
  main v cfg w =
  (built <~ main_loop v cfg; main_tail v cfg (fst built) (snd built)) w.
Proof.
  unfold main, main_loop, main_tail, bind.
  destruct (logger _ _ w) as [[[]|e0] w0]; [|reflexivity].
  destruct (load_state w0) as [[prev|e1] w1]; [|reflexivity].
  destruct (check_loop _ _ _ _ _ _ w1) as [[[cs sc]|e2] w2]; reflexivity.
Qed.

(** ** What each function does to the world *)

Lemma quiet_refl (w : World) : quiet w w.
Proof. repeat split. Qed.

Lemma quiet_trans (w1 w2 w3 : World) : quiet w1 w2 -> quiet w2 w3 -> quiet w1 w3.
Proof.
  intros (A & A1 & A2 & A3 & A4) (B & B1 & B2 & B3 & B4).
  split; [exact (same_oracles_trans _ _ _ A B)|].
  repeat split; congruence.
Qed.

Lemma check_website_run (v : Variant) (cfg : Config) (url : pystr) (w : World) :
  check_website v cfg url w =
  (Ret (classify v cfg (http_get w (gets_done w))),
   snd (requests_get url (TIMEOUT_SECONDS cfg) true (headers v) w)).
Proof.
  unfold classify, check_website, try_except, bind, requests_get; simpl.
  destruct (http_get w (gets_done w)) as [response|e]; simpl.
  - destruct (status_code response =? 200); reflexivity.
  - unfold ret, raise. destruct e as [[] s]; simpl.
    + reflexivity.
    + destruct (contains (lit "ConnectionError") s); [reflexivity|].
      destruct (contains (lit "SSLError") s); reflexivity.
    + reflexivity.
Qed.

Lemma load_state_run (w : World) :
  exists w',
    load_state w = (Ret (loaded (state_file w)), w')
    /\ quiet w w'
    /\ state_file w' = state_file w
    /\ gets_done w' = gets_done w.
Proof.
  unfold load_state, bind, path_exists, try_except, read_json.
  destruct (state_file w) as [|e|d] eqn:Hf; simpl.
  - exists w. split; [reflexivity|]. split; [apply quiet_refl|]. split; [|reflexivity]. exact Hf.
  - rewrite Hf, isinstance_Exception. unfold logger, emit, ret; simpl.
    eexists. split; [reflexivity|]. simpl.
    split; [|split; [exact Hf|reflexivity]].
    repeat split; simpl.
    + rewrite posted_app; simpl. apply app_nil_r.
    + rewrite send_errors_app. unfold send_errors at 2. simpl. lia.
  - rewrite Hf. exists w. split; [reflexivity|]. split; [apply quiet_refl|]. split; [|reflexivity]. exact Hf.
Qed.

Lemma save_state_run (state : pydict) (w : World) :
  exists w',
    save_state state w = (Ret tt, w')
    /\ quiet w w'
    /\ state_file w' = saved (file_write w) state (state_file w)
    /\ gets_done w' = gets_done w.
Proof.
  unfold save_state, try_except, write_json.
  destruct (file_write w) as [|e|e later] eqn:Hw; simpl.
  - eexists. split; [reflexivity|]. simpl. repeat split; exact Hw.
  - rewrite isinstance_Exception. unfold logger, emit; simpl.
    eexists. split; [reflexivity|]. simpl.
    repeat split; simpl; try exact Hw.
    + rewrite posted_app; simpl. apply app_nil_r.
    + rewrite send_errors_app. unfold send_errors at 2. simpl. lia.
  - rewrite isinstance_Exception. unfold logger, emit; simpl.
    eexists. split; [reflexivity|]. simpl.
    repeat split; simpl; try exact Hw.
    + rewrite posted_app; simpl. apply app_nil_r.
    + rewrite send_errors_app. unfold send_errors at 2. simpl. lia.
Qed.

Lemma startswith_app (p s : pystr) : startswith (p ++ s) p = true.
Proof.
  induction p as [|c p IH]; [reflexivity|].
  simpl. rewrite N.eqb_refl. exact IH.
Qed.

Lemma send_telegram_message_trace (cfg : Config) (message : pystr) (w : World) :
  exists w',
    send_telegram_message cfg message w
      = (Ret (delivered (http_post w (posts_done w))), w')
    /\ trace w' = trace w ++ send_events cfg message (http_post w (posts_done w))
    /\ same_oracles w w'
    /\ state_file w' = state_file w
    /\ gets_done w' = gets_done w
    /\ clock_reads w' = clock_reads w
    /\ posts_done w' = S (posts_done w).
Proof.
  unfold send_telegram_message, send_events, try_except, bind, requests_post,
    delivered; simpl.
  destruct (http_post w (posts_done w)) as [response|e]; simpl.
  - destruct (status_code response =? 200); unfold logger, emit, ret; simpl;
      (eexists; split; [reflexivity|]); simpl; rewrite <- app_assoc;
      repeat split.
  - rewrite isinstance_Exception. unfold logger, emit, ret; simpl.
    eexists; split; [reflexivity|]. simpl. rewrite <- app_assoc.
    repeat split.
Qed.

Lemma send_events_posted (cfg : Config) (message : pystr)
    (reply : result Response) :
  posted (send_events cfg message reply) = [message].
Proof.
  unfold send_events. simpl.
  destruct reply as [response|e]; [destruct (status_code response =? 200)|];
    reflexivity.
Qed.

Lemma send_events_errors (cfg : Config) (message : pystr)
    (reply : result Response) :
  send_errors (send_events cfg message reply)
  = if delivered reply then 0%nat else 1%nat.
Proof.
  unfold send_events, send_errors, delivered.
  destruct reply as [response|e].
  - destruct (status_code response =? 200).
    + reflexivity.
    + rewrite filter_cons_False by (simpl; discriminate).
      rewrite filter_cons_True; [reflexivity|].
      unfold is_send_error. rewrite startswith_app. reflexivity.
  - rewrite filter_cons_False by (simpl; discriminate).
    rewrite filter_cons_True; [reflexivity|].
    unfold is_send_error. rewrite startswith_app. apply orb_true_r.
Qed.

Lemma format_status_message_run (v : Variant) (website : pystr) (is_up : bool)
    (error_msg : pystr) (code : option Z) (w : World) :
  format_status_message v website is_up error_msg code w =
  (Ret (status_message v (website, is_up, error_msg, code)
          (clock w (clock_reads w))),
   snd (now_strftime w)).
Proof.
  unfold status_message, format_status_message, bind, now_strftime; simpl.
  destruct is_up; reflexivity.
Qed.

Lemma format_summary_message_run (current_state : pydict) (w : World) :
  format_summary_message current_state w =
  (Ret (summary_message current_state (clock w (clock_reads w))),
   snd (now_strftime w)).
Proof.
  unfold summary_message, format_summary_message, bind, now_strftime; simpl.
  reflexivity.
Qed.

Lemma send_loop_run (v : Variant) (cfg : Config)
    (status_changed : list ChangeRecord) :
  forall w,
  exists w',
    send_loop v cfg status_changed w = (Ret tt, w')
    /\ same_oracles w w'
    /\ state_file w' = state_file w
    /\ gets_done w' = gets_done w
    /\ posts_done w' = (posts_done w + length status_changed)%nat
    /\ clock_reads w' = (clock_reads w + length status_changed)%nat
    /\ posted (trace w')
       = posted (trace w)
           ++ messages_from v (clock w) (clock_reads w) status_changed
    /\ send_errors (trace w')
       = (send_errors (trace w)
          + failures (http_post w) (posts_done w) (length status_changed))%nat.
Proof.
  induction status_changed as [|[[[website is_up] error_msg] code] rest IH];
    intros w.
  - exists w. simpl. rewrite !Nat.add_0_r, app_nil_r.
    repeat split.
  - simpl. unfold bind at 1. rewrite format_status_message_run.
    set (w1 := snd (now_strftime w)).
    unfold bind at 1.
    destruct (send_telegram_message_trace cfg
                (status_message v (website, is_up, error_msg, code)
                   (clock w (clock_reads w))) w1)
      as (w2 & Hrun & Htr & Hor & Hsf & Hg & Hc & Hp).
    rewrite Hrun. unfold bind at 1. unfold sleep, emit at 1. cbv iota beta.
    match goal with |- context [send_loop v cfg rest ?w3] =>
      destruct (IH w3) as (w' & Hloop & Hor' & Hsf' & Hg' & Hp' & Hc' & Hpo & Herr)
    end.
    simpl in Hor', Hsf', Hg', Hp', Hc', Hpo, Herr.
    exists w'. split; [exact Hloop|].
    destruct Hor as (O1 & O2 & O3 & O4). destruct Hor' as (P1 & P2 & P3 & P4).
    subst w1; simpl in *.
    split; [repeat split; congruence|].
    split; [congruence|]. split; [congruence|].
    split; [rewrite Hp', Hp; lia|].
    split; [rewrite Hc', Hc; lia|].
    rewrite O4, Hc in Hpo. rewrite O2, Hp in Herr.
    split.
    + rewrite Hpo, posted_app, Htr, posted_app, send_events_posted; simpl.
      rewrite app_nil_r, <- app_assoc. reflexivity.
    + rewrite Herr, send_errors_app, Htr, send_errors_app, send_events_errors.
      change (send_errors [Sleep 1]) with 0%nat.
      destruct (delivered (http_post w (posts_done w))); lia.
Qed.

Lemma quiet_fields (w : World) :
  quiet w
    (mkWorld (state_file w) (http_get w) (http_post w) (file_write w)
             (clock w) (gets_done w) (posts_done w) (clock_reads w) (trace w)).
Proof. repeat split. Qed.

Lemma quiet_log (w : World) (level : Level) (msg : pystr) sf g p fw c gd pd cr t :
  level <> ERROR ->
  quiet w (mkWorld sf g p fw c gd pd cr t) ->
  quiet w (mkWorld sf g p fw c gd pd cr (t ++ [Log level msg])).
Proof.
  intros Hl (O & Hp & Hc & Hpo & Herr).
  split; [exact O|]. simpl in *.
  split; [exact Hp|]. split; [exact Hc|].
  split.
  - rewrite posted_app, Hpo. simpl. apply app_nil_r.
  - rewrite send_errors_app, Herr.
    destruct level; try congruence; unfold send_errors at 2; simpl; lia.
Qed.

Lemma quiet_get (w : World) (url : pystr) (timeout : Z) (redirects : bool)
    (hs : list (pystr * pystr)) sf g p fw c gd pd cr t :
  quiet w (mkWorld sf g p fw c gd pd cr t) ->
  quiet w (mkWorld sf g p fw c (S gd) pd cr
             (t ++ [Get url timeout redirects hs])).
Proof.
  intros (O & Hp & Hc & Hpo & Herr).
  split; [exact O|]. simpl in *.
  split; [exact Hp|]. split; [exact Hc|].
  split.
  - rewrite posted_app, Hpo. simpl. apply app_nil_r.
  - rewrite send_errors_app, Herr. unfold send_errors at 2; simpl; lia.
Qed.

Lemma check_loop_run (v : Variant) (cfg : Config) (previous_state : pydict)
    (websites : list pystr) :
  forall current_state status_changed w,
  exists w',
    check_loop v cfg previous_state websites current_state status_changed w
      = (Ret (built_state current_state
                (checks_from v cfg (http_get w) (gets_done w) websites),
              status_changed
                ++ detected previous_state
                     (checks_from v cfg (http_get w) (gets_done w) websites)),
         w')
    /\ quiet w w'
    /\ state_file w' = state_file w
    /\ gets_done w' = (gets_done w + length websites)%nat.
Proof.
  induction websites as [|website rest IH]; intros cs sc w.
  - exists w. simpl. rewrite app_nil_r, Nat.add_0_r.
    split; [reflexivity|]. split; [apply quiet_refl|]. split; reflexivity.
  - cbn [check_loop checks_from built_state detected length].
    unfold bind at 1. unfold logger at 1, emit at 1. cbv iota beta.
    unfold bind at 1. rewrite check_website_run.
    unfold requests_get; cbn [snd state_file http_get http_post file_write
      clock gets_done posts_done clock_reads trace].
    destruct (classify v cfg (http_get w (gets_done w)))
      as [[is_up error_msg] code].
    cbv iota beta.
    assert (Hq : quiet w
      (mkWorld (state_file w) (http_get w) (http_post w) (file_write w)
         (clock w) (S (gets_done w)) (posts_done w) (clock_reads w)
         ((trace w ++ [Log INFO (lit "Checking " ++ website)])
            ++ [Get website (TIMEOUT_SECONDS cfg) true (headers v)]))).
    { apply quiet_get, quiet_log; [discriminate|apply quiet_fields]. }
    destruct (negb (eqb is_up (dict_get previous_state website true))).
    + unfold bind at 1. unfold bind at 1. unfold logger at 1, emit at 1.
      cbv iota beta. unfold ret at 1. cbv iota beta.
      unfold bind at 1. unfold logger at 1, emit at 1. cbv iota beta.
      cbn [state_file http_get http_post file_write
        clock gets_done posts_done clock_reads trace].
      match goal with |- context [check_loop v cfg previous_state rest ?c ?s ?w3] =>
        destruct (IH c s w3) as (w' & Hrun & Hq' & Hsf & Hg);
        assert (Hq3 : quiet w w3)
      end.
      { apply quiet_log; [discriminate|].
        apply quiet_log; [discriminate|]. exact Hq. }
      cbn [state_file http_get gets_done] in Hrun, Hsf, Hg. exists w'.
      split; [rewrite Hrun, <- app_assoc; reflexivity|].
      split; [exact (quiet_trans _ _ _ Hq3 Hq')|].
      split; [exact Hsf|]. rewrite Hg. lia.
    + unfold bind at 1. unfold ret at 1. cbv iota beta.
      unfold bind at 1. unfold logger at 1, emit at 1. cbv iota beta.
      cbn [state_file http_get http_post file_write
        clock gets_done posts_done clock_reads trace].
      match goal with |- context [check_loop v cfg previous_state rest ?c ?s ?w3] =>
        destruct (IH c s w3) as (w' & Hrun & Hq' & Hsf & Hg);
        assert (Hq3 : quiet w w3)
      end.
      { apply quiet_log; [discriminate|]. exact Hq. }
      cbn [state_file http_get gets_done] in Hrun, Hsf, Hg. exists w'.
      split; [rewrite Hrun; reflexivity|].
      split; [exact (quiet_trans _ _ _ Hq3 Hq')|].
      split; [exact Hsf|]. rewrite Hg. lia.
Qed.

(** ** The whole run *)

Lemma failures_add (post : nat -> result Response) (k1 k2 : nat) :
  forall n,
  failures post n (k1 + k2)
  = (failures post n k1 + failures post (n + k1) k2)%nat.
Proof.
  induction k1 as [|k1 IH]; intros n; simpl.
  - rewrite Nat.add_0_r. reflexivity.
  - rewrite IH. replace (n + S k1)%nat with (S n + k1)%nat by lia. lia.
Qed.

Lemma messages_from_length (v : Variant) (clk : nat -> pystr)
    (status_changed : list ChangeRecord) :
  forall n, length (messages_from v clk n status_changed) = length status_changed.
Proof.
  induction status_changed as [|c rest IH]; intros n; simpl; [|rewrite IH];
    reflexivity.
Qed.

Lemma main_loop_run (v : Variant) (cfg : Config) (w : World) :
  exists w1,
    main_loop v cfg w
      = (Ret (built_state [] (checks_of v cfg w),
              detected (loaded (state_file w)) (checks_of v cfg w)),
         w1)
    /\ quiet w w1
    /\ state_file w1 = state_file w
    /\ gets_done w1 = (gets_done w + length (WEBSITES cfg))%nat.
Proof.
  unfold main_loop, checks_of.
  unfold bind at 1. unfold logger at 1, emit at 1. cbv iota beta.
  match goal with |- context [bind load_state _ ?w0] =>
    assert (Hq0 : quiet w w0)
      by (apply quiet_log; [discriminate|apply quiet_fields]);
    destruct (load_state_run w0) as (w1 & Hload & Hq1 & Hsf1 & Hg1)
  end.
  unfold bind at 1. rewrite Hload.
  cbn [state_file gets_done] in Hsf1, Hg1 |- *.
  destruct (check_loop_run v cfg (loaded (state_file w)) (WEBSITES cfg) [] [] w1)
    as (w2 & Hrun & Hq2 & Hsf2 & Hg2).
  exists w2. pose proof Hq1 as ((G1 & _) & _).
  cbn [http_get] in G1. rewrite G1, Hg1 in Hrun.
  split; [exact Hrun|].
  split; [exact (quiet_trans _ _ _ Hq0 (quiet_trans _ _ _ Hq1 Hq2))|].
  split; [congruence|]. rewrite Hg2, Hg1. reflexivity.
Qed.

Lemma main_tail_run (v : Variant) (cfg : Config) (current_state : pydict)
    (status_changed : list ChangeRecord) (w : World) :
  exists w',
    main_tail v cfg current_state status_changed w = (Ret tt, w')
    /\ same_oracles w w'
    /\ state_file w' = saved (file_write w) current_state (state_file w)
    /\ gets_done w' = gets_done w
    /\ posted (trace w')
       = posted (trace w) ++ notices v w current_state status_changed
    /\ send_errors (trace w')
       = (send_errors (trace w)
          + failures (http_post w) (posts_done w)
              (length (notices v w current_state status_changed)))%nat.
Proof.
  (* the part before [save_state]: the sends *)
  assert (Hsend : exists w1,
    (match status_changed with
     | [] => ret tt
     | _ :: _ =>
         send_loop v cfg status_changed;;
         match v with
         | Hardcoded => ret tt
         | Configured =>
             summary_message <~ format_summary_message current_state;
             _ <~ send_telegram_message cfg summary_message;
             ret tt
         end
     end) w = (Ret tt, w1)
    /\ same_oracles w w1
    /\ state_file w1 = state_file w
    /\ gets_done w1 = gets_done w
    /\ posted (trace w1)
       = posted (trace w) ++ notices v w current_state status_changed
    /\ send_errors (trace w1)
       = (send_errors (trace w)
          + failures (http_post w) (posts_done w)
              (length (notices v w current_state status_changed)))%nat).
  { unfold notices.
    destruct status_changed as [|change rest] eqn:Hsc.
    - exists w. unfold summary_part. destruct v; simpl;
        rewrite app_nil_r, Nat.add_0_r; repeat split.
    - rewrite <- Hsc. unfold bind at 1.
      destruct (send_loop_run v cfg status_changed w)
        as (w1 & Hrun & Hor & Hsf & Hg & Hp & Hc & Hpo & Herr).
      rewrite Hrun. destruct v.
      + exists w1. unfold summary_part. rewrite app_nil_r, messages_from_length.
        repeat split; try apply Hor; assumption.
      + unfold bind at 1. rewrite format_summary_message_run.
        unfold now_strftime; cbn [snd]. unfold bind at 1.
        match goal with |- context [send_telegram_message cfg ?m ?w2] =>
          destruct (send_telegram_message_trace cfg m w2)
            as (w3 & Hrun3 & Htr3 & Hor3 & Hsf3 & Hg3 & Hc3 & Hp3)
        end.
        rewrite Hrun3. exists w3.
        cbn [state_file http_post posts_done gets_done clock_reads trace]
          in Htr3, Hsf3, Hg3, Hc3, Hp3.
        destruct Hor as (O1 & O2 & O3 & O4).
        destruct Hor3 as (P1 & P2 & P3 & P4).
        cbn [http_get http_post file_write clock] in P1, P2, P3, P4.
        split; [reflexivity|].
        split; [repeat split; congruence|].
        split; [congruence|]. split; [congruence|].
        assert (Hsum : summary_part Configured current_state status_changed
                  (clock w (clock_reads w + length status_changed)%nat)
                = [summary_message current_state
                     (clock w (clock_reads w + length status_changed)%nat)])
          by (rewrite Hsc; reflexivity).
        rewrite O4, Hc, O2, Hp in Htr3. rewrite Hsum.
        split.
        * rewrite Htr3, posted_app, send_events_posted, Hpo, <- app_assoc.
          reflexivity.
        * rewrite Htr3, send_errors_app, send_events_errors, Herr.
          rewrite length_app, messages_from_length, failures_add. simpl.
          destruct (delivered _); lia. }
  destruct Hsend as (w1 & Hrun1 & Hor1 & Hsf1 & Hg1 & Hpo1 & Herr1).
  unfold main_tail. unfold bind at 1. rewrite Hrun1.
  destruct (save_state_run current_state w1) as (w2 & Hrun2 & Hq2 & Hsf2 & Hg2).
  unfold bind at 1. rewrite Hrun2.
  unfold logger, emit. eexists. split; [reflexivity|].
  cbn [state_file http_get http_post file_write clock gets_done trace].
  destruct Hq2 as (Hor2 & _ & _ & Hpo2 & Herr2).
  destruct Hor1 as (O1 & O2 & O3 & O4).
  split; [exact (same_oracles_trans _ _ _ (conj O1 (conj O2 (conj O3 O4))) Hor2)|].
  split; [rewrite Hsf2, O3, Hsf1; reflexivity|].
  split; [congruence|].
  split.
  - rewrite posted_app, Hpo2, Hpo1. simpl. apply app_nil_r.
  - rewrite send_errors_app, Herr2, Herr1.
    change (send_errors [Log INFO _]) with 0%nat. lia.
Qed.

Lemma notices_quiet (v : Variant) (w w1 : World) (current_state : pydict)
    (status_changed : list ChangeRecord) :
  quiet w w1 ->
  notices v w1 current_state status_changed
  = notices v w current_state status_changed.
Proof.
  intros ((_ & _ & _ & Hc) & _ & Hr & _). unfold notices.
  rewrite Hc, Hr. reflexivity.
Qed.

(** One run of [main] from any world: it returns normally; it leaves the
    state file as [save_state] of the map built by the first loop does; and
    it posts the notices of the detected changes, each once and in order,
    logging one error for each send that is not delivered. *)
Lemma main_run (v : Variant) (cfg : Config) (w : World) :
  exists w1 w',
    main_loop v cfg w
      = (Ret (built_state [] (checks_of v cfg w),
              detected (loaded (state_file w)) (checks_of v cfg w)),
         w1)
    /\ main v cfg w = (Ret tt, w')
    /\ same_oracles w w'
    /\ state_file w'
       = saved (file_write w) (built_state [] (checks_of v cfg w))
           (state_file w)
    /\ posted (trace w')
       = posted (trace w)
           ++ notices v w (built_state [] (checks_of v cfg w))
                (detected (loaded (state_file w)) (checks_of v cfg w))
    /\ send_errors (trace w')
       = (send_errors (trace w)
          + failures (http_post w) (posts_done w)
              (length
                 (notices v w (built_state [] (checks_of v cfg w))
                    (detected (loaded (state_file w)) (checks_of v cfg w)))))%nat.
Proof.
  destruct (main_loop_run v cfg w) as (w1 & Hloop & Hq & Hsf & Hg).
  set (cs := built_state [] (checks_of v cfg w)) in *.
  set (sc := detected (loaded (state_file w)) (checks_of v cfg w)) in *.
  destruct (main_tail_run v cfg cs sc w1)
    as (w' & Htail & Hor & Hsf' & Hg' & Hpo & Herr).
  exists w1, w'. split; [exact Hloop|].
  split; [rewrite main_split; unfold bind; rewrite Hloop; exact Htail|].
  pose proof Hq as (Hor1 & Hp1 & Hc1 & Hpo1 & Herr1).
  split; [exact (same_oracles_trans _ _ _ Hor1 Hor)|].
  destruct Hor1 as (O1 & O2 & O3 & O4).
  split; [rewrite Hsf', O3, Hsf; reflexivity|].
  rewrite (notices_quiet v w w1 cs sc Hq) in Hpo, Herr.
  split; [rewrite Hpo, Hpo1; reflexivity|].
  rewrite Herr, Herr1, O2, Hp1. reflexivity.
Qed.

(** ** Dictionaries *)

Lemma dict_lookup_set (d : pydict) (k k' : pystr) (b : bool) :
  dict_lookup (dict_set d k b) k'
  = if decide (k' = k) then Some b else dict_lookup d k'.
Proof.
  induction d as [|[k0 b0] d IH]; simpl.
  - destruct (decide (k' = k)); reflexivity.
  - destruct (decide (k = k0)) as [->|Hne]; simpl.
    + destruct (decide (k' = k0)); reflexivity.
    + rewrite IH. destruct (decide (k' = k0)) as [->|]; [|reflexivity].
      destruct (decide (k0 = k)); congruence.
Qed.

Lemma dict_keys_set (d : pydict) (k k' : pystr) (b : bool) :
  k' ∈ dict_keys (dict_set d k b) <-> k' = k \/ k' ∈ dict_keys d.
Proof.
  unfold dict_keys. induction d as [|[k0 b0] d IH]; simpl.
  - rewrite list_elem_of_singleton, elem_of_nil. tauto.
  - destruct (decide (k = k0)) as [->|Hne]; simpl.
    + rewrite elem_of_cons. tauto.
    + rewrite !elem_of_cons, IH. tauto.
Qed.

Lemma dict_keys_set_NoDup (d : pydict) (k : pystr) (b : bool) :
  NoDup (dict_keys d) -> NoDup (dict_keys (dict_set d k b)).
Proof.
  unfold dict_keys. induction d as [|[k0 b0] d IH]; simpl; intros Hnd.
  - apply NoDup_singleton.
  - apply NoDup_cons in Hnd as [Hnotin Hnd].
    destruct (decide (k = k0)) as [->|Hne]; simpl.
    + apply NoDup_cons. split; assumption.
    + apply NoDup_cons. split; [|exact (IH Hnd)].
      intros Hin. apply (dict_keys_set d k k0 b) in Hin as [Heq|Hin];
        [congruence|exact (Hnotin Hin)].
Qed.

Lemma dict_lookup_keys (d : pydict) (k : pystr) :
  k ∈ dict_keys d <-> is_Some (dict_lookup d k).
Proof.
  unfold dict_keys. induction d as [|[k0 b0] d IH]; simpl.
  - rewrite elem_of_nil. split; [tauto|]. intros [x Hx]. discriminate.
  - rewrite elem_of_cons. destruct (decide (k = k0)) as [->|Hne].
    + split; [eauto|tauto].
    + rewrite IH. split; [intros [?|?]; [congruence|assumption]|tauto].
Qed.

Lemma checks_from_urls (v : Variant) (cfg : Config)
    (get : nat -> result Response) (websites : list pystr) :
  forall n, (checks_from v cfg get n websites).*1 = websites.
Proof.
  induction websites as [|u rest IH]; intros n; simpl; [|rewrite IH];
    reflexivity.
Qed.

Lemma built_state_keys (checks : list (pystr * CheckResult)) :
  forall (d : pydict) (k : pystr),
  k ∈ dict_keys (built_state d checks) <-> k ∈ dict_keys d \/ k ∈ checks.*1.
Proof.
  induction checks as [|[u [[is_up msg] code]] rest IH]; intros d k; simpl.
  - rewrite elem_of_nil. tauto.
  - rewrite IH, dict_keys_set, elem_of_cons. tauto.
Qed.

Lemma built_state_NoDup (checks : list (pystr * CheckResult)) :
  forall d : pydict,
  NoDup (dict_keys d) -> NoDup (dict_keys (built_state d checks)).
Proof.
  induction checks as [|[u [[is_up msg] code]] rest IH]; intros d Hnd; simpl.
  - exact Hnd.
  - apply IH, dict_keys_set_NoDup, Hnd.
Qed.

Lemma classify_failure (v : Variant) (cfg : Config) (e : Exn) :
  exists detail, classify v cfg (Raise e) = (false, detail, None).
Proof.
  unfold classify, check_website, try_except, bind, requests_get,
    world_replying, isinstance; simpl.
  destruct e as [[] s]; simpl.
  - eexists; reflexivity.
  - destruct (contains (lit "ConnectionError") s); [eexists; reflexivity|].
    destruct (contains (lit "SSLError") s); eexists; reflexivity.
  - eexists; reflexivity.
Qed.

(** ** The checker *)

(** C3: when a response is received, [check_website] classifies it by its
    status code alone: 200 gives (True, "OK", 200); any other code [c] gives
    (False, "HTTP c", c). *)
Theorem check_website_response (v : Variant) (cfg : Config) (url : pystr)
    (w : World) (response : Response) :
  http_get w (gets_done w) = Ret response ->
  (status_code response = 200 ->
   fst (check_website v cfg url w) = Ret (true, lit "OK", Some 200))
  /\ (status_code response <> 200 ->
      fst (check_website v cfg url w)
      = Ret (false, lit "HTTP " ++ str_of_int (status_code response),
             Some (status_code response))).
Proof.
  intros Hreply.
  unfold check_website, try_except, bind, requests_get. rewrite Hreply.
  cbv iota beta. split; intros Hcode.
  - rewrite Hcode. reflexivity.
  - apply Z.eqb_neq in Hcode. rewrite Hcode. reflexivity.
Qed.

Lemma check_website_response_witness :
  http_get (example_world error_500 ok_200 Absent WriteOk) 0 = error_500
  /\ fst (check_website Configured example_cfg (lit "https://a.test")
            (example_world error_500 ok_200 Absent WriteOk))
     = Ret (false, lit "HTTP 500", Some 500).
Proof.
  split; [reflexivity|].
  apply (check_website_response Configured example_cfg (lit "https://a.test")
           (example_world error_500 ok_200 Absent WriteOk)
           (mkResponse 500 (lit "oops")) eq_refl).
  simpl. discriminate.
Defined.

(** C4: when the request raises before a response is received,
    [check_website] returns down with no status code, and the detail is
    chosen by the first matching rule: a [Timeout] gives
    "Timeout after Ns"; another [RequestException] gives
    "Connection failed" if its text contains "ConnectionError", else
    "SSL error" if it contains "SSLError", else "Error: " and the first 100
    characters of the text; any other exception gives "Unexpected error: "
    and the first 100 characters. *)
Theorem check_website_failure (v : Variant) (cfg : Config) (url : pystr)
    (w : World) (e : Exn) :
  http_get w (gets_done w) = Raise e ->
  exists detail,
    fst (check_website v cfg url w) = Ret (false, detail, None)
    /\ match exn_class e with
       | Timeout =>
           detail
           = lit "Timeout after " ++ str_of_int (TIMEOUT_SECONDS cfg)
               ++ lit "s"
       | RequestException =>
           (contains (lit "ConnectionError") (exn_str e) = true ->
            detail = lit "Connection failed")
           /\ (contains (lit "ConnectionError") (exn_str e) = false ->
               contains (lit "SSLError") (exn_str e) = true ->
               detail = lit "SSL error")
           /\ (contains (lit "ConnectionError") (exn_str e) = false ->
               contains (lit "SSLError") (exn_str e) = false ->
               detail = lit "Error: " ++ take 100 (exn_str e))
       | Exception =>
           detail = lit "Unexpected error: " ++ take 100 (exn_str e)
       end.
Proof.
  intros Hreply.
  unfold check_website, try_except, bind, requests_get. rewrite Hreply.
  cbv iota beta. destruct e as [[] s]; unfold isinstance; simpl.
  - eexists. split; reflexivity.
  - destruct (contains (lit "ConnectionError") s) eqn:Hc.
    + eexists. split; [reflexivity|]. repeat split; congruence.
    + destruct (contains (lit "SSLError") s) eqn:Hs.
      * eexists. split; [reflexivity|]. repeat split; congruence.
      * eexists. split; [reflexivity|]. repeat split; congruence.
  - eexists. split; reflexivity.
Qed.

Lemma check_website_failure_witness :
  http_get (example_world read_timeout ok_200 Absent WriteOk) 0 = read_timeout
  /\ exists detail,
       fst (check_website Hardcoded example_cfg (lit "https://a.test")
              (example_world read_timeout ok_200 Absent WriteOk))
       = Ret (false, detail, None)
       /\ detail = lit "Timeout after 30s".
Proof.
  split; [reflexivity|].
  destruct (check_website_failure Hardcoded example_cfg (lit "https://a.test")
              (example_world read_timeout ok_200 Absent WriteOk)
              (mkExn Timeout (lit "Read timed out. (read timeout=30)"))
              eq_refl) as (detail & Hrun & Hdetail).
  exists detail. split; [exact Hrun|exact Hdetail].
Defined.

(** The rules at work on the texts [requests] gives its exceptions. *)
Example refused_connection_is_connection_failed :
  fst (check_website Configured example_cfg (lit "https://a.test")
         (example_world
            (Raise (mkExn RequestException
               (lit "HTTPSConnectionPool(host='a.test', port=443): Max retries exceeded with url: / (Caused by NewConnectionError('Failed to establish a new connection: [Errno 111] Connection refused'))")))
            ok_200 Absent WriteOk))
  = Ret (false, lit "Connection failed", None).
Proof. vm_compute. reflexivity. Qed.

Example bad_certificate_is_ssl_error :
  fst (check_website Configured example_cfg (lit "https://a.test")
         (example_world
            (Raise (mkExn RequestException
               (lit "HTTPSConnectionPool(host='a.test', port=443): Max retries exceeded with url: / (Caused by SSLError(SSLCertVerificationError(1, 'certificate verify failed')))")))
            ok_200 Absent WriteOk))
  = Ret (false, lit "SSL error", None).
Proof. vm_compute. reflexivity. Qed.

Example long_error_text_is_cut :
  fst (check_website Hardcoded example_cfg (lit "https://a.test")
         (example_world
            (Raise (mkExn RequestException (replicate 150 120%N)))
            ok_200 Absent WriteOk))
  = Ret (false, lit "Error: " ++ replicate 100 120%N, None).
Proof. vm_compute. reflexivity. Qed.

Example timeout_rule_comes_first :
  fst (check_website Hardcoded example_cfg (lit "https://a.test")
         (example_world
            (Raise (mkExn Timeout
               (lit "HTTPSConnectionPool(host='a.test', port=443): Max retries exceeded with url: / (Caused by ConnectTimeoutError('Connection to a.test timed out'))")))
            ok_200 Absent WriteOk))
  = Ret (false, lit "Timeout after 30s", None).
Proof. vm_compute. reflexivity. Qed.

Example other_exception_is_unexpected :
  fst (check_website Hardcoded example_cfg (lit "https://a.test")
         (example_world (Raise (mkExn Exception (lit "boom")))
            ok_200 Absent WriteOk))
  = Ret (false, lit "Unexpected error: boom", None).
Proof. vm_compute. reflexivity. Qed.

(** C9: [check_website] never raises: for every URL and every answer of
    the network it returns a triple, and a request that raised is
    classified as down with no status code. *)
Theorem check_website_total (v : Variant) (cfg : Config) (url : pystr)
    (w : World) :
  exists is_up detail code,
    fst (check_website v cfg url w) = Ret (is_up, detail, code)
    /\ forall e, http_get w (gets_done w) = Raise e ->
                 is_up = false /\ code = None.
Proof.
  rewrite check_website_run. cbn [fst].
  destruct (http_get w (gets_done w)) as [response|e].
  - destruct (classify v cfg (Ret response)) as [[is_up detail] code].
    exists is_up, detail, code. split; [reflexivity|]. discriminate.
  - destruct (classify_failure v cfg e) as (detail & Hc). rewrite Hc.
    exists false, detail, None. split; [reflexivity|]. intros; split; reflexivity.
Qed.

(** ** The notification sink *)

(** C8, as stated, fails: a webhook answer with a 2xx status other than 200
    makes [send_telegram_message] return False. *)
Lemma send_telegram_message_2xx_counterexample :
  ~ (forall (cfg : Config) (message : pystr) (w : World) (response : Response),
       http_post w (posts_done w) = Ret response ->
       200 <= status_code response < 300 ->
       fst (send_telegram_message cfg message w) = Ret true).
Proof.
  intros H.
  specialize (H example_cfg (lit "hello")
                (example_world ok_200 no_content_204 Absent WriteOk)
                (mkResponse 204 []) eq_refl).
  simpl in H. specialize (H ltac:(lia)).
  vm_compute in H. discriminate H.
Qed.

(** C8, amended: [send_telegram_message] never raises; it returns True
    exactly when the webhook answers with status code 200, and False on any
    other answer (other 2xx codes included) and on any exception; whenever it
    returns False its last act is to log the failure as an error. *)
Theorem send_telegram_message_result (cfg : Config) (message : pystr)
    (w : World) :
  exists sent w',
    send_telegram_message cfg message w = (Ret sent, w')
    /\ (sent = true <->
        exists response,
          http_post w (posts_done w) = Ret response
          /\ status_code response = 200)
    /\ (sent = false ->
        exists msg,
          last (trace w') = Some (Log ERROR msg)
          /\ is_send_error (Log ERROR msg) = true).
Proof.
  destruct (send_telegram_message_trace cfg message w)
    as (w' & Hrun & Htr & _).
  exists (delivered (http_post w (posts_done w))), w'.
  split; [exact Hrun|]. rewrite Htr. unfold send_events, delivered.
  destruct (http_post w (posts_done w)) as [response|e].
  - destruct (status_code response =? 200) eqn:Hcode.
    + split; [|discriminate].
      split; [|reflexivity]. intros _. exists response.
      split; [reflexivity|]. apply Z.eqb_eq, Hcode.
    + split.
      * split; [discriminate|]. intros (r & Hr & Hc). injection Hr as <-.
        apply Z.eqb_neq in Hcode. contradiction.
      * intros _. eexists. rewrite last_app_cons, last_cons_cons, last_singleton.
        split; [reflexivity|]. unfold is_send_error.
        rewrite startswith_app. reflexivity.
  - split.
    + split; [discriminate|]. intros (r & Hr & _). discriminate Hr.
    + intros _. eexists. rewrite last_app_cons, last_cons_cons, last_singleton.
      split; [reflexivity|]. unfold is_send_error.
      rewrite startswith_app. apply orb_true_r.
Qed.

(** ** The first loop as a function of the check results *)

Lemma checks_from_app (v : Variant) (cfg : Config)
    (get : nat -> result Response) (l1 l2 : list pystr) :
  forall n,
  checks_from v cfg get n (l1 ++ l2)
  = checks_from v cfg get n l1
      ++ checks_from v cfg get (n + length l1) l2.
Proof.
  induction l1 as [|u l1 IH]; intros n; simpl.
  - rewrite Nat.add_0_r. reflexivity.
  - rewrite IH. replace (n + S (length l1))%nat with (S n + length l1)%nat by lia.
    reflexivity.
Qed.

Lemma detected_app (previous_state : pydict)
    (c1 c2 : list (pystr * CheckResult)) :
  detected previous_state (c1 ++ c2)
  = detected previous_state c1 ++ detected previous_state c2.
Proof.
  induction c1 as [|[u [[is_up msg] code]] c1 IH]; simpl; [reflexivity|].
  rewrite IH, app_assoc. reflexivity.
Qed.

Lemma detected_urls (previous_state : pydict)
    (checks : list (pystr * CheckResult)) (change : ChangeRecord) :
  change ∈ detected previous_state checks -> change.1.1.1 ∈ checks.*1.
Proof.
  induction checks as [|[u [[is_up msg] code]] checks IH]; simpl.
  - intros H. apply elem_of_nil in H. contradiction.
  - rewrite elem_of_app. intros [H|H].
    + destruct (negb (eqb is_up (dict_get previous_state u true))).
      * apply list_elem_of_singleton in H. subst change. simpl.
        apply elem_of_cons. left. reflexivity.
      * apply elem_of_nil in H. contradiction.
    + apply elem_of_cons. right. exact (IH H).
Qed.

Lemma messages_from_app (v : Variant) (clk : nat -> pystr)
    (s1 s2 : list ChangeRecord) :
  forall n,
  messages_from v clk n (s1 ++ s2)
  = messages_from v clk n s1 ++ messages_from v clk (n + length s1) s2.
Proof.
  induction s1 as [|c s1 IH]; intros n; simpl.
  - rewrite Nat.add_0_r. reflexivity.
  - rewrite IH. replace (n + S (length s1))%nat with (S n + length s1)%nat by lia.
    reflexivity.
Qed.

Lemma built_state_app (c1 c2 : list (pystr * CheckResult)) :
  forall d, built_state d (c1 ++ c2) = built_state (built_state d c1) c2.
Proof.
  induction c1 as [|[u [[is_up msg] code]] c1 IH]; intros d; simpl;
    [reflexivity|apply IH].
Qed.

Lemma built_state_lookup_other (checks : list (pystr * CheckResult))
    (k : pystr) :
  k ∉ checks.*1 ->
  forall d, dict_lookup (built_state d checks) k = dict_lookup d k.
Proof.
  induction checks as [|[u [[is_up msg] code]] checks IH]; simpl; intros Hk d.
  - reflexivity.
  - apply not_elem_of_cons in Hk as [Hne Hk].
    rewrite (IH Hk), dict_lookup_set. destruct (decide (k = u)); congruence.
Qed.

(** A key checked at least once holds the result of its last check. *)
Lemma built_state_lookup_last (c1 c2 : list (pystr * CheckResult))
    (u : pystr) (checked : CheckResult) (d : pydict) :
  u ∉ c2.*1 ->
  dict_lookup (built_state d (c1 ++ (u, checked) :: c2)) u
  = Some checked.1.1.
Proof.
  intros Hu. rewrite built_state_app. destruct checked as [[is_up msg] code].
  simpl. rewrite (built_state_lookup_other c2 u Hu), dict_lookup_set.
  destruct (decide (u = u)); congruence.
Qed.

Lemma built_state_targets (v : Variant) (cfg : Config) (w : World) (u : pystr) :
  u ∈ dict_keys (built_state [] (checks_of v cfg w)) <-> u ∈ WEBSITES cfg.
Proof.
  rewrite built_state_keys. unfold checks_of. rewrite checks_from_urls.
  unfold dict_keys. simpl. rewrite elem_of_nil. tauto.
Qed.

Lemma built_state_targets_NoDup (v : Variant) (cfg : Config) (w : World) :
  NoDup (dict_keys (built_state [] (checks_of v cfg w))).
Proof. apply built_state_NoDup. apply NoDup_nil. exact I. Qed.

Lemma checks_of_split (v : Variant) (cfg : Config) (w : World)
    (l1 l2 : list pystr) (u : pystr) :
  WEBSITES cfg = l1 ++ u :: l2 ->
  checks_of v cfg w
  = checks_from v cfg (http_get w) (gets_done w) l1
      ++ (u, classify v cfg (http_get w (gets_done w + length l1)%nat))
      :: checks_from v cfg (http_get w) (S (gets_done w + length l1)) l2.
Proof.
  intros Hws. unfold checks_of. rewrite Hws, checks_from_app. reflexivity.
Qed.

Lemma filter_url_none (u : pystr) (changes : list ChangeRecord) :
  (forall change, change ∈ changes -> change.1.1.1 <> u) ->
  filter (fun change : ChangeRecord => change.1.1.1 = u) changes = [].
Proof.
  induction changes as [|c changes IH]; intros H; [reflexivity|].
  rewrite filter_cons_False.
  - apply IH. intros change Hin. apply H, elem_of_cons. right. exact Hin.
  - apply H, elem_of_cons. left. reflexivity.
Qed.

(** ** The differ and notifier *)

(** C1: a target missing from the loaded previous state is compared with
    "up": if its check classifies it as down, the first loop queues exactly
    one change record (url, False, detail, status_code) for it, between
    the records of the targets before and after it, and the run posts
    exactly one per-site message for that record, at the same place among
    the messages.  When the URL is configured once, it is the only record
    with that URL. *)
Theorem first_down_is_notified (v : Variant) (cfg : Config) (w : World)
    (l1 l2 : list pystr) (u detail : pystr) (code : option Z) :
  WEBSITES cfg = l1 ++ u :: l2 ->
  dict_lookup (loaded (state_file w)) u = None ->
  classify v cfg (http_get w (gets_done w + length l1)%nat)
  = (false, detail, code) ->
  dict_get (loaded (state_file w)) u true = true
  /\ exists current_state sc1 sc2 m1 m2 w1 w',
       main_loop v cfg w
       = (Ret (current_state, sc1 ++ (u, false, detail, code) :: sc2), w1)
       /\ (forall change, change ∈ sc1 -> change.1.1.1 ∈ l1)
       /\ (forall change, change ∈ sc2 -> change.1.1.1 ∈ l2)
       /\ (u ∉ l1 -> u ∉ l2 ->
           filter (fun change : ChangeRecord => change.1.1.1 = u)
             (sc1 ++ (u, false, detail, code) :: sc2)
           = [(u, false, detail, code)])
       /\ main v cfg w = (Ret tt, w')
       /\ length m1 = length sc1
       /\ length m2 = length sc2
       /\ posted (trace w')
          = posted (trace w)
              ++ m1
              ++ status_message v (u, false, detail, code)
                   (clock w (clock_reads w + length sc1)%nat)
              :: m2
              ++ match v with
                 | Hardcoded => []
                 | Configured =>
                     [summary_message current_state
                        (clock w (clock_reads w
                                  + length (sc1 ++ (u, false, detail, code)
                                              :: sc2))%nat)]
                 end.
Proof.
  intros Hws Habsent Hdown.
  assert (Hget : dict_get (loaded (state_file w)) u true = true)
    by (unfold dict_get; rewrite Habsent; reflexivity).
  split; [exact Hget|].
  destruct (main_run v cfg w) as (w1 & w' & Hloop & Hmain & _ & _ & Hpo & _).
  rewrite (checks_of_split v cfg w l1 l2 u Hws), Hdown in Hloop, Hpo.
  rewrite detected_app in Hloop, Hpo. simpl in Hloop, Hpo.
  rewrite Hget in Hloop, Hpo. simpl in Hloop, Hpo.
  set (prev := loaded (state_file w)) in *.
  set (c1 := checks_from v cfg (http_get w) (gets_done w) l1) in *.
  set (c2 := checks_from v cfg (http_get w) (S (gets_done w + length l1)) l2) in *.
  set (cs := built_state [] (c1 ++ (u, (false, detail, code)) :: c2)) in *.
  assert (H1 : forall change, change ∈ detected prev c1 -> change.1.1.1 ∈ l1).
  { intros change Hin. apply detected_urls in Hin.
    unfold c1 in Hin. rewrite checks_from_urls in Hin. exact Hin. }
  assert (H2 : forall change, change ∈ detected prev c2 -> change.1.1.1 ∈ l2).
  { intros change Hin. apply detected_urls in Hin.
    unfold c2 in Hin. rewrite checks_from_urls in Hin. exact Hin. }
  exists cs, (detected prev c1), (detected prev c2),
    (messages_from v (clock w) (clock_reads w) (detected prev c1)),
    (messages_from v (clock w)
       (S (clock_reads w + length (detected prev c1))) (detected prev c2)),
    w1, w'.
  split; [exact Hloop|]. split; [exact H1|]. split; [exact H2|].
  split.
  { intros Hu1 Hu2. rewrite filter_app, filter_cons_True by reflexivity.
    rewrite !filter_url_none; [reflexivity| |].
    - intros change Hin Heq. apply Hu2. rewrite <- Heq. exact (H2 change Hin).
    - intros change Hin Heq. apply Hu1. rewrite <- Heq. exact (H1 change Hin). }
  split; [exact Hmain|].
  split; [apply messages_from_length|]. split; [apply messages_from_length|].
  rewrite Hpo. unfold notices.
  assert (Hsum : forall ts,
    summary_part v cs
      (detected prev c1 ++ (u, false, detail, code) :: detected prev c2) ts
    = match v with Hardcoded => [] | Configured => [summary_message cs ts] end)
    by (intros ts; unfold summary_part;
        destruct v, (detected prev c1); reflexivity).
  rewrite Hsum, messages_from_app. simpl.
  replace (clock_reads w + length (detected prev c1) + 1)%nat
    with (S (clock_reads w + length (detected prev c1))) by lia.
  rewrite <- !app_assoc. reflexivity.
Qed.

Lemma first_down_is_notified_witness :
  WEBSITES example_cfg = [] ++ lit "https://a.test" :: []
  /\ dict_lookup (loaded Absent) (lit "https://a.test") = None
  /\ classify Hardcoded example_cfg error_500 = (false, lit "HTTP 500", Some 500)
  /\ exists current_state status_changed w1,
       main_loop Hardcoded example_cfg
         (example_world error_500 ok_200 Absent WriteOk)
       = (Ret (current_state, status_changed), w1)
       /\ filter (fun change : ChangeRecord => change.1.1.1 = lit "https://a.test")
            status_changed
          = [(lit "https://a.test", false, lit "HTTP 500", Some 500)].
Proof.
  split; [reflexivity|]. split; [reflexivity|]. split; [reflexivity|].
  destruct (first_down_is_notified Hardcoded example_cfg
              (example_world error_500 ok_200 Absent WriteOk)
              [] [] (lit "https://a.test") (lit "HTTP 500") (Some 500)
              eq_refl eq_refl eq_refl)
    as (_ & cs & sc1 & sc2 & m1 & m2 & w1 & w' & Hloop & _ & _ & Hone & _).
  exists cs, (sc1 ++ (lit "https://a.test", false, lit "HTTP 500", Some 500) :: sc2), w1.
  split; [exact Hloop|].
  apply Hone; apply not_elem_of_nil.
Defined.

(** C2: whatever the webhook answers to each send (a non-200 answer or an
    exception included), [main] returns normally; every queued change
    record is posted exactly once, in order (followed by the summary in
    [website_monitor_config.py]); one send error is logged for each send
    that was not delivered; and the state file is left as [save_state]
    leaves it when given the whole map built by the first loop, whose keys
    are the configured targets. *)
Theorem failed_sends_block_nothing (v : Variant) (cfg : Config) (w : World) :
  exists current_state status_changed w1 w',
    main_loop v cfg w = (Ret (current_state, status_changed), w1)
    /\ main v cfg w = (Ret tt, w')
    /\ posted (trace w')
       = posted (trace w)
           ++ messages_from v (clock w) (clock_reads w) status_changed
           ++ summary_part v current_state status_changed
                (clock w (clock_reads w + length status_changed)%nat)
    /\ length (messages_from v (clock w) (clock_reads w) status_changed)
       = length status_changed
    /\ send_errors (trace w')
       = (send_errors (trace w)
          + failures (http_post w) (posts_done w)
              (length (posted (trace w')) - length (posted (trace w))))%nat
    /\ state_file w' = state_file (snd (save_state current_state w))
    /\ (file_write w = WriteOk -> state_file w' = Holds current_state)
    /\ (forall u, u ∈ dict_keys current_state <-> u ∈ WEBSITES cfg).
Proof.
  destruct (main_run v cfg w)
    as (w1 & w' & Hloop & Hmain & _ & Hsf & Hpo & Herr).
  exists (built_state [] (checks_of v cfg w)),
    (detected (loaded (state_file w)) (checks_of v cfg w)), w1, w'.
  split; [exact Hloop|]. split; [exact Hmain|].
  split; [exact Hpo|]. split; [apply messages_from_length|].
  split.
  { rewrite Herr, Hpo, length_app.
    replace (length (posted (trace w)) + _ - length (posted (trace w)))%nat
      with (length (notices v w (built_state [] (checks_of v cfg w))
                      (detected (loaded (state_file w)) (checks_of v cfg w))))
      by lia.
    reflexivity. }
  destruct (save_state_run (built_state [] (checks_of v cfg w)) w)
    as (w2 & Hsave & _ & Hsf2 & _).
  split; [rewrite Hsave; cbn [snd]; rewrite Hsf, Hsf2; reflexivity|].
  split; [intros Hok; rewrite Hsf, Hok; reflexivity|].
  intros u. apply built_state_targets.
Qed.

(** The scenario of the specification: the previous state has the target
    up and its check answers 500; one change record, one per-site message,
    and the saved state has the target down. *)
Example went_down_scenario :
  let w := example_world error_500 ok_200
             (Holds [(lit "https://a.test", true)]) WriteOk in
  fst (main_loop Hardcoded example_cfg w)
  = Ret ([(lit "https://a.test", false)],
         [(lit "https://a.test", false, lit "HTTP 500", Some 500)])
  /\ posted (trace (snd (main Hardcoded example_cfg w)))
     = [status_message Hardcoded
          (lit "https://a.test", false, lit "HTTP 500", Some 500)
          (lit "2024-01-01 00:00:00")]
  /\ state_file (snd (main Hardcoded example_cfg w))
     = Holds [(lit "https://a.test", false)].
Proof. vm_compute. repeat split. Qed.

(** The scenario of the specification: the sink answers 500 to the one
    change; the run still returns and the new state is on disk. *)
Example sink_rejects_scenario :
  let w := example_world error_500 error_500 (Holds [(lit "https://a.test", true)])
             WriteOk in
  fst (main Configured example_cfg w) = Ret tt
  /\ state_file (snd (main Configured example_cfg w))
     = Holds [(lit "https://a.test", false)]
  /\ length (posted (trace (snd (main Configured example_cfg w)))) = 2%nat
  /\ send_errors (trace (snd (main Configured example_cfg w))) = 2%nat.
Proof. vm_compute. repeat split. Qed.

(** ** The state map *)

Lemma checks_from_elem (v : Variant) (cfg : Config)
    (get : nat -> result Response) (websites : list pystr) (u : pystr)
    (checked : CheckResult) :
  forall n,
  (u, checked) ∈ checks_from v cfg get n websites ->
  exists i, websites !! i = Some u /\ checked = classify v cfg (get (n + i)%nat).
Proof.
  induction websites as [|u0 rest IH]; intros n; simpl.
  - intros H. apply elem_of_nil in H. contradiction.
  - rewrite elem_of_cons. intros [Heq|Hin].
    + injection Heq as -> ->. exists 0%nat. rewrite Nat.add_0_r.
      split; reflexivity.
    + destruct (IH (S n) Hin) as (i & Hi & Hc). exists (S i).
      replace (n + S i)%nat with (S n + i)%nat by lia.
      split; assumption.
Qed.

Lemma built_state_lookup_agree (checks : list (pystr * CheckResult))
    (up : pystr -> bool) :
  (forall u checked, (u, checked) ∈ checks -> checked.1.1 = up u) ->
  forall d u, u ∈ checks.*1 ->
  dict_lookup (built_state d checks) u = Some (up u).
Proof.
  induction checks as [|[u0 [[is_up msg] code]] rest IH]; simpl;
    intros Hup d u Hu.
  - apply elem_of_nil in Hu. contradiction.
  - destruct (decide (u ∈ rest.*1)) as [Hin|Hnotin].
    + apply IH; [|exact Hin]. intros u' c' Hc'. apply Hup, elem_of_cons.
      right. exact Hc'.
    + apply elem_of_cons in Hu as [->|Hin]; [|contradiction].
      rewrite (built_state_lookup_other rest u0 Hnotin), dict_lookup_set.
      rewrite decide_True by reflexivity.
      rewrite <- (Hup u0 (is_up, msg, code)); [reflexivity|].
      apply elem_of_cons. left. reflexivity.
Qed.

Lemma detected_none (previous_state : pydict)
    (checks : list (pystr * CheckResult)) :
  (forall u checked, (u, checked) ∈ checks ->
                     dict_get previous_state u true = checked.1.1) ->
  detected previous_state checks = [].
Proof.
  induction checks as [|[u [[is_up msg] code]] rest IH]; simpl; intros H.
  - reflexivity.
  - rewrite (H u (is_up, msg, code)) by (apply elem_of_cons; left; reflexivity).
    simpl. rewrite eqb_reflx. simpl. apply IH.
    intros u' c' Hc'. apply H, elem_of_cons. right. exact Hc'.
Qed.

Lemma built_state_same_outcomes (v : Variant) (cfg : Config)
    (ga gb : nat -> result Response) (websites : list pystr) :
  forall na nb d,
  (forall i, (i < length websites)%nat ->
             (classify v cfg (ga (na + i)%nat)).1.1
             = (classify v cfg (gb (nb + i)%nat)).1.1) ->
  built_state d (checks_from v cfg ga na websites)
  = built_state d (checks_from v cfg gb nb websites).
Proof.
  induction websites as [|u rest IH]; intros na nb d H; simpl; [reflexivity|].
  pose proof (H 0%nat ltac:(simpl; lia)) as H0.
  rewrite !Nat.add_0_r in H0.
  destruct (classify v cfg (ga na)) as [[upa msga] codea].
  destruct (classify v cfg (gb nb)) as [[upb msgb] codeb].
  simpl in H0. subst upb. apply IH. intros i Hi.
  specialize (H (S i) ltac:(simpl; lia)).
  replace (na + S i)%nat with (S na + i)%nat in H by lia.
  replace (nb + S i)%nat with (S nb + i)%nat in H by lia.
  exact H.
Qed.

Lemma load_state_holds (w : World) (d : pydict) :
  state_file w = Holds d -> fst (load_state w) = Ret d.
Proof.
  intros Hf. destruct (load_state_run w) as (w' & Hrun & _).
  rewrite Hrun, Hf. reflexivity.
Qed.

(** C5: when the save of a run succeeds, what [load_state] then reads from
    the state file is the map the first loop built in that run: its keys
    are the configured targets, and each target holds the up/down result of
    its (last) check. *)
Theorem saved_state_round_trip (v : Variant) (cfg : Config) (w : World) :
  file_write w = WriteOk ->
  exists current_state status_changed w1 w',
    main_loop v cfg w = (Ret (current_state, status_changed), w1)
    /\ main v cfg w = (Ret tt, w')
    /\ (forall w2, state_file w2 = state_file w' ->
                   fst (load_state w2) = Ret current_state)
    /\ (forall u, u ∈ dict_keys current_state <-> u ∈ WEBSITES cfg)
    /\ (forall i u,
          WEBSITES cfg !! i = Some u ->
          u ∉ drop (S i) (WEBSITES cfg) ->
          dict_lookup current_state u
          = Some (classify v cfg (http_get w (gets_done w + i)%nat)).1.1).
Proof.
  intros Hok.
  destruct (main_run v cfg w) as (w1 & w' & Hloop & Hmain & _ & Hsf & _).
  rewrite Hok in Hsf. simpl in Hsf.
  exists (built_state [] (checks_of v cfg w)),
    (detected (loaded (state_file w)) (checks_of v cfg w)), w1, w'.
  split; [exact Hloop|]. split; [exact Hmain|].
  split; [intros w2 Hw2; apply load_state_holds; congruence|].
  split; [intros u; apply built_state_targets|].
  intros i u Hi Hlast.
  pose proof (take_drop_middle _ _ _ Hi) as Hsplit. symmetry in Hsplit.
  rewrite (checks_of_split v cfg w _ _ u Hsplit).
  rewrite length_take_le by (apply lookup_lt_Some in Hi; lia).
  apply built_state_lookup_last. rewrite checks_from_urls. exact Hlast.
Qed.

Lemma saved_state_round_trip_witness :
  file_write (example_world error_500 ok_200 Absent WriteOk) = WriteOk
  /\ exists w',
       main Hardcoded example_cfg (example_world error_500 ok_200 Absent WriteOk)
       = (Ret tt, w')
       /\ fst (load_state w') = Ret [(lit "https://a.test", false)].
Proof.
  split; [reflexivity|].
  destruct (saved_state_round_trip Hardcoded example_cfg
              (example_world error_500 ok_200 Absent WriteOk) eq_refl)
    as (cs & sc & w1 & w' & Hloop & Hmain & Hload & _).
  exists w'. split; [exact Hmain|].
  rewrite (Hload w' eq_refl). f_equal.
  vm_compute in Hloop. injection Hloop as Hcs _ _.
  rewrite <- Hcs. reflexivity.
Defined.

(** C7: the map handed to [save_state] is built from scratch over the
    configured targets: its keys are distinct and are exactly the targets;
    a successful save leaves exactly that map on disk whatever the file
    held before, so keys of the previous file that are no longer
    configured are gone. *)
Theorem saved_keys_are_targets (v : Variant) (cfg : Config) (w : World) :
  exists current_state status_changed w1 w',
    main_loop v cfg w = (Ret (current_state, status_changed), w1)
    /\ main v cfg w = (Ret tt, w')
    /\ NoDup (dict_keys current_state)
    /\ (forall u, u ∈ dict_keys current_state <-> u ∈ WEBSITES cfg)
    /\ state_file w' = state_file (snd (save_state current_state w))
    /\ (file_write w = WriteOk ->
        state_file w' = Holds current_state
        /\ forall u, u ∈ dict_keys (loaded (state_file w)) ->
                     u ∉ WEBSITES cfg ->
                     u ∉ dict_keys (loaded (state_file w'))).
Proof.
  destruct (main_run v cfg w) as (w1 & w' & Hloop & Hmain & _ & Hsf & _).
  exists (built_state [] (checks_of v cfg w)),
    (detected (loaded (state_file w)) (checks_of v cfg w)), w1, w'.
  split; [exact Hloop|]. split; [exact Hmain|].
  split; [apply built_state_targets_NoDup|].
  split; [intros u; apply built_state_targets|].
  destruct (save_state_run (built_state [] (checks_of v cfg w)) w)
    as (w2 & Hsave & _ & Hsf2 & _).
  split; [rewrite Hsave; cbn [snd]; rewrite Hsf, Hsf2; reflexivity|].
  intros Hok. rewrite Hok in Hsf. simpl in Hsf.
  split; [exact Hsf|].
  intros u _ Hgone Hin. rewrite Hsf in Hin. simpl in Hin.
  apply built_state_targets in Hin. exact (Hgone Hin).
Qed.

(** A first run of [website_monitor.py] with every site up: nothing is
    posted and all five targets are saved as up. *)
Example all_up_first_run :
  let w' := snd (main Hardcoded website_monitor_cfg
                   (example_world ok_200 ok_200 Absent WriteOk)) in
  posted (trace w') = []
  /\ state_file w' = Holds (map (fun u => (u, true)) WEBSITES_hardcoded).
Proof. vm_compute. split; reflexivity. Qed.

(** A removed target disappears from the file. *)
Example stale_key_is_dropped :
  state_file
    (snd (main Hardcoded example_cfg
            (example_world ok_200 ok_200
               (Holds [(lit "https://old.test", false)]) WriteOk)))
  = Holds [(lit "https://a.test", true)].
Proof. vm_compute. reflexivity. Qed.

(** C10: two runs over the same targets whose checks come out the same
    (up or down, target by target) hand the same map to [save_state],
    whatever state each of them loaded; when both saves succeed the two
    state files are equal.  The previous state only decides which changes
    are queued. *)
Theorem saved_state_ignores_previous (v : Variant) (cfg : Config)
    (wa wb : World) :
  (forall i, (i < length (WEBSITES cfg))%nat ->
             (classify v cfg (http_get wa (gets_done wa + i)%nat)).1.1
             = (classify v cfg (http_get wb (gets_done wb + i)%nat)).1.1) ->
  exists current_state changed_a changed_b wa1 wb1 wa' wb',
    main_loop v cfg wa = (Ret (current_state, changed_a), wa1)
    /\ main_loop v cfg wb = (Ret (current_state, changed_b), wb1)
    /\ main v cfg wa = (Ret tt, wa')
    /\ main v cfg wb = (Ret tt, wb')
    /\ state_file wa' = state_file (snd (save_state current_state wa))
    /\ state_file wb' = state_file (snd (save_state current_state wb))
    /\ (file_write wa = WriteOk -> file_write wb = WriteOk ->
        state_file wa' = state_file wb').
Proof.
  intros Hsame.
  destruct (main_run v cfg wa) as (wa1 & wa' & Hla & Hma & _ & Hsa & _).
  destruct (main_run v cfg wb) as (wb1 & wb' & Hlb & Hmb & _ & Hsb & _).
  assert (Hcs : built_state [] (checks_of v cfg wb)
                = built_state [] (checks_of v cfg wa)).
  { unfold checks_of. symmetry. apply built_state_same_outcomes. exact Hsame. }
  rewrite Hcs in Hlb, Hsb.
  exists (built_state [] (checks_of v cfg wa)),
    (detected (loaded (state_file wa)) (checks_of v cfg wa)),
    (detected (loaded (state_file wb)) (checks_of v cfg wb)),
    wa1, wb1, wa', wb'.
  split; [exact Hla|]. split; [exact Hlb|].
  split; [exact Hma|]. split; [exact Hmb|].
  destruct (save_state_run (built_state [] (checks_of v cfg wa)) wa)
    as (wa2 & Hsave_a & _ & Hsa2 & _).
  destruct (save_state_run (built_state [] (checks_of v cfg wa)) wb)
    as (wb2 & Hsave_b & _ & Hsb2 & _).
  split; [rewrite Hsave_a; cbn [snd]; rewrite Hsa, Hsa2; reflexivity|].
  split; [rewrite Hsave_b; cbn [snd]; rewrite Hsb, Hsb2; reflexivity|].
  intros Hoka Hokb. rewrite Hsa, Hsb, Hoka, Hokb. reflexivity.
Qed.

Lemma saved_state_ignores_previous_witness :
  (forall i, (i < length (WEBSITES example_cfg))%nat ->
     (classify Configured example_cfg
        (http_get (example_world error_500 ok_200 Absent WriteOk) (0 + i)%nat)).1.1
     = (classify Configured example_cfg
          (http_get (example_world read_timeout ok_200
                       (Holds [(lit "https://a.test", false)]) WriteOk)
             (0 + i)%nat)).1.1)
  /\ state_file
       (snd (main Configured example_cfg
               (example_world error_500 ok_200 Absent WriteOk)))
     = state_file
         (snd (main Configured example_cfg
                 (example_world read_timeout ok_200
                    (Holds [(lit "https://a.test", false)]) WriteOk))).
Proof.
  assert (Hsame : forall i, (i < length (WEBSITES example_cfg))%nat ->
     (classify Configured example_cfg
        (http_get (example_world error_500 ok_200 Absent WriteOk) (0 + i)%nat)).1.1
     = (classify Configured example_cfg
          (http_get (example_world read_timeout ok_200
                       (Holds [(lit "https://a.test", false)]) WriteOk)
             (0 + i)%nat)).1.1)
    by (intros i _; reflexivity).
  split; [exact Hsame|].
  destruct (saved_state_ignores_previous Configured example_cfg
              (example_world error_500 ok_200 Absent WriteOk)
              (example_world read_timeout ok_200
                 (Holds [(lit "https://a.test", false)]) WriteOk) Hsame)
    as (cs & sca & scb & wa1 & wb1 & wa' & wb' & _ & _ & Hma & Hmb & _ & _ & Heq).
  rewrite Hma, Hmb. exact (Heq eq_refl eq_refl).
Defined.

Lemma last_occurrence (l : list pystr) (u : pystr) :
  u ∈ l -> exists j, l !! j = Some u /\ u ∉ drop (S j) l.
Proof.
  induction l as [|x l IH]; intros Hin.
  - apply elem_of_nil in Hin. contradiction.
  - destruct (decide (u ∈ l)) as [Hl|Hl].
    + destruct (IH Hl) as (j & Hj & Hlast). exists (S j). split; assumption.
    + apply elem_of_cons in Hin as [->|Hin]; [|contradiction].
      exists 0%nat. split; [reflexivity|]. simpl. rewrite drop_0. exact Hl.
Qed.

Lemma built_state_lookup_at (v : Variant) (cfg : Config) (w : World)
    (j : nat) (u : pystr) :
  WEBSITES cfg !! j = Some u ->
  u ∉ drop (S j) (WEBSITES cfg) ->
  dict_lookup (built_state [] (checks_of v cfg w)) u
  = Some (classify v cfg (http_get w (gets_done w + j)%nat)).1.1.
Proof.
  intros Hj Hlast.
  pose proof (take_drop_middle _ _ _ Hj) as Hsplit. symmetry in Hsplit.
  rewrite (checks_of_split v cfg w _ _ u Hsplit).
  rewrite length_take_le by (apply lookup_lt_Some in Hj; lia).
  apply built_state_lookup_last. rewrite checks_from_urls. exact Hlast.
Qed.

(** ** Two runs in a row *)

(** C6, as stated, fails: when the first run cannot write the state file
    ([save_state] logs the error and returns), the second run loads the
    same old state and detects the same change again. *)
Lemma second_run_counterexample :
  ~ (forall (v : Variant) (cfg : Config) (w1 w2 : World) (up : pystr -> bool),
       state_file w2 = state_file (snd (main v cfg w1)) ->
       (forall i u,
          WEBSITES cfg !! i = Some u ->
          (classify v cfg (http_get w1 (gets_done w1 + i)%nat)).1.1 = up u
          /\ (classify v cfg (http_get w2 (gets_done w2 + i)%nat)).1.1 = up u) ->
       (exists current_state w2l,
          main_loop v cfg w2 = (Ret (current_state, []), w2l))
       /\ posted (trace (snd (main v cfg w2))) = posted (trace w2)).
Proof.
  intros H.
  specialize (H Hardcoded example_cfg
                (example_world error_500 ok_200 Absent (OpenFails read_only))
                (example_world error_500 ok_200 Absent WriteOk)
                (fun _ => false) eq_refl).
  destruct H as [_ H].
  - intros [|i] u Hi; [|destruct i; discriminate Hi].
    split; reflexivity.
  - vm_compute in H. discriminate H.
Qed.

(** With a URL listed more than once the same fails even when the write
    succeeds and each check comes out as in the run before: the saved
    state keeps the result of the last check of the URL, which an earlier
    check of it in the next run may differ from. *)
Lemma second_run_repeated_url_counterexample :
  ~ (forall (v : Variant) (cfg : Config) (w1 w2 : World),
       file_write w1 = WriteOk ->
       state_file w2 = state_file (snd (main v cfg w1)) ->
       (forall i, (i < length (WEBSITES cfg))%nat ->
          (classify v cfg (http_get w1 (gets_done w1 + i)%nat)).1.1
          = (classify v cfg (http_get w2 (gets_done w2 + i)%nat)).1.1) ->
       exists current_state w2l,
         main_loop v cfg w2 = (Ret (current_state, []), w2l)).
Proof.
  intros H.
  destruct (H Hardcoded repeated_cfg
              (example_world_by down_then_up ok_200 Absent WriteOk)
              (example_world_by down_then_up ok_200
                 (Holds [(lit "https://a.test", true);
                         (lit "https://b.test", true)]) WriteOk)
              eq_refl eq_refl (fun i _ => eq_refl))
    as (cs & w2l & Hloop).
  vm_compute in Hloop. discriminate Hloop.
Qed.

(** C6, amended: if the first of two runs in a row writes the state file
    successfully, every check comes out the same (up or down) in the second
    run as in the first, and the checks of a URL that is listed more than
    once agree with each other, then the second run queues no change record
    and posts nothing. *)
Theorem second_run_is_silent (v : Variant) (cfg : Config) (w1 w2 : World) :
  file_write w1 = WriteOk ->
  state_file w2 = state_file (snd (main v cfg w1)) ->
  (forall i, (i < length (WEBSITES cfg))%nat ->
     (classify v cfg (http_get w1 (gets_done w1 + i)%nat)).1.1
     = (classify v cfg (http_get w2 (gets_done w2 + i)%nat)).1.1) ->
  (forall i j u,
     WEBSITES cfg !! i = Some u -> WEBSITES cfg !! j = Some u ->
     (classify v cfg (http_get w1 (gets_done w1 + i)%nat)).1.1
     = (classify v cfg (http_get w1 (gets_done w1 + j)%nat)).1.1) ->
  exists current_state w2l w2',
    main_loop v cfg w2 = (Ret (current_state, []), w2l)
    /\ main v cfg w2 = (Ret tt, w2')
    /\ posted (trace w2') = posted (trace w2).
Proof.
  intros Hok Hfile Hsame Hagree.
  destruct (main_run v cfg w1) as (w1l & w1' & _ & Hmain1 & _ & Hsf1 & _).
  rewrite Hmain1 in Hfile. cbn [snd] in Hfile.
  rewrite Hsf1, Hok in Hfile. simpl in Hfile.
  destruct (main_run v cfg w2) as (w2l & w2' & Hloop2 & Hmain2 & _ & _ & Hpo & _).
  rewrite Hfile in Hloop2, Hpo. simpl in Hloop2, Hpo.
  assert (Hnone : detected (built_state [] (checks_of v cfg w1))
                    (checks_of v cfg w2) = []).
  { apply detected_none. intros u checked Hin.
    unfold checks_of in Hin. apply checks_from_elem in Hin as (i & Hi & ->).
    destruct (last_occurrence (WEBSITES cfg) u (list_elem_of_lookup_2 _ _ _ Hi))
      as (j & Hj & Hlast).
    unfold dict_get.
    rewrite (built_state_lookup_at v cfg w1 j u Hj Hlast).
    rewrite <- (Hagree i j u Hi Hj).
    apply Hsame. exact (lookup_lt_Some _ _ _ Hi). }
  rewrite Hnone in Hloop2, Hpo.
  exists (built_state [] (checks_of v cfg w2)), w2l, w2'.
  split; [exact Hloop2|]. split; [exact Hmain2|].
  rewrite Hpo. unfold notices, summary_part. destruct v; simpl; apply app_nil_r.
Qed.

Lemma second_run_is_silent_witness :
  file_write (example_world error_500 ok_200 Absent WriteOk) = WriteOk
  /\ exists current_state w2l,
       main_loop Configured repeated_cfg
         (example_world error_500 ok_200
            (Holds [(lit "https://a.test", false);
                    (lit "https://b.test", false)]) WriteOk)
       = (Ret (current_state, []), w2l).
Proof.
  split; [reflexivity|].
  destruct (second_run_is_silent Configured repeated_cfg
              (example_world error_500 ok_200 Absent WriteOk)
              (example_world error_500 ok_200
                 (Holds [(lit "https://a.test", false);
                         (lit "https://b.test", false)]) WriteOk)
              eq_refl eq_refl (fun i _ => eq_refl)
              (fun i j u _ _ => eq_refl))
    as (cs & w2l & w2' & Hloop & _).
  exists cs, w2l. exact Hloop.
Defined.

(** * More of the scripts: the trace of a run *)

Lemma load_state_trace (w : World) :
  trace (snd (load_state w)) = trace w ++ load_events (state_file w).
Proof.
  unfold load_state, bind, path_exists, try_except, read_json, load_events.
  destruct (state_file w) as [|e|d] eqn:Hf; simpl; rewrite ?Hf;
    rewrite ?isinstance_Exception; simpl; rewrite ?app_nil_r; reflexivity.
Qed.

Lemma save_state_trace (state : pydict) (w : World) :
  trace (snd (save_state state w)) = trace w ++ save_events (file_write w).
Proof.
  unfold save_state, try_except, write_json, save_events.
  destruct (file_write w) as [|e|e later]; simpl;
    rewrite ?isinstance_Exception; simpl; rewrite ?app_nil_r; reflexivity.
Qed.

Lemma check_loop_trace (v : Variant) (cfg : Config) (previous_state : pydict)
    (websites : list pystr) :
  forall current_state status_changed w,
  trace (snd (check_loop v cfg previous_state websites current_state
                status_changed w))
  = trace w
      ++ loop_events v cfg previous_state
           (checks_from v cfg (http_get w) (gets_done w) websites).
Proof.
  induction websites as [|website rest IH]; intros cs sc w.
  - simpl. rewrite app_nil_r. reflexivity.
  - cbn [check_loop checks_from loop_events].
    unfold bind at 1. unfold logger at 1, emit at 1. cbv iota beta.
    unfold bind at 1. rewrite check_website_run.
    unfold requests_get; cbn [snd state_file http_get http_post file_write
      clock gets_done posts_done clock_reads trace].
    unfold check_events.
    destruct (classify v cfg (http_get w (gets_done w)))
      as [[is_up error_msg] code].
    cbv iota beta.
    destruct (negb (eqb is_up (dict_get previous_state website true))).
    + unfold bind at 1. unfold bind at 1. unfold logger at 1, emit at 1.
      cbv iota beta. unfold ret at 1. cbv iota beta.
      unfold bind at 1. unfold logger at 1, emit at 1. cbv iota beta.
      rewrite IH.
      cbn [state_file http_get http_post file_write
        clock gets_done posts_done clock_reads trace].
      rewrite <- !app_assoc. reflexivity.
    + unfold bind at 1. unfold ret at 1. cbv iota beta.
      unfold bind at 1. unfold logger at 1, emit at 1. cbv iota beta.
      rewrite IH.
      cbn [state_file http_get http_post file_write
        clock gets_done posts_done clock_reads trace].
      rewrite <- !app_assoc. reflexivity.
Qed.

Lemma send_loop_trace (v : Variant) (cfg : Config)
    (status_changed : list ChangeRecord) :
  forall w,
  trace (snd (send_loop v cfg status_changed w))
  = trace w
      ++ send_loop_events v cfg (clock w) (http_post w) (clock_reads w)
           (posts_done w) status_changed.
Proof.
  induction status_changed as [|[[[website is_up] error_msg] code] rest IH];
    intros w.
  - simpl. rewrite app_nil_r. reflexivity.
  - cbn [send_loop send_loop_events].
    unfold bind at 1. rewrite format_status_message_run.
    unfold now_strftime; cbn [snd]. unfold bind at 1.
    match goal with |- context [send_telegram_message cfg ?m ?w1] =>
      destruct (send_telegram_message_trace cfg m w1)
        as (w2 & Hrun & Htr & (O1 & O2 & O3 & O4) & Hsf & Hg & Hc & Hp)
    end.
    rewrite Hrun. unfold bind at 1. unfold sleep, emit at 1. cbv iota beta.
    rewrite IH.
    cbn [state_file http_get http_post file_write clock gets_done posts_done
      clock_reads trace] in *.
    rewrite Htr, O2, O4, Hc, Hp, <- !app_assoc. reflexivity.
Qed.

Lemma main_loop_trace (v : Variant) (cfg : Config) (w : World) :
  trace (snd (main_loop v cfg w))
  = trace w
      ++ [Log INFO (lit "Starting website monitoring check")]
      ++ load_events (state_file w)
      ++ loop_events v cfg (loaded (state_file w)) (checks_of v cfg w).
Proof.
  unfold main_loop, checks_of.
  unfold bind at 1. unfold logger at 1, emit at 1. cbv iota beta.
  match goal with |- context [bind load_state _ ?w0] =>
    destruct (load_state_run w0) as (w1 & Hload & ((G1 & _) & _) & Hsf1 & Hg1);
    pose proof (load_state_trace w0) as Htr
  end.
  unfold bind at 1. rewrite Hload in Htr |- *.
  cbn [snd state_file http_get gets_done trace] in Htr, Hsf1, Hg1, G1 |- *.
  rewrite check_loop_trace, Htr, G1, Hg1, <- !app_assoc. reflexivity.
Qed.

Lemma main_tail_trace (v : Variant) (cfg : Config) (current_state : pydict)
    (status_changed : list ChangeRecord) (w : World) :
  trace (snd (main_tail v cfg current_state status_changed w))
  = trace w
      ++ send_loop_events v cfg (clock w) (http_post w) (clock_reads w)
           (posts_done w) status_changed
      ++ summary_events v cfg w current_state status_changed
      ++ save_events (file_write w)
      ++ [Log INFO
            (lit "Check completed. "
               ++ str_of_int (Z.of_nat (length status_changed))
               ++ lit " status changes detected.")].
Proof.
  assert (Hsend : exists w1,
    (match status_changed with
     | [] => ret tt
     | _ :: _ =>
         send_loop v cfg status_changed;;
         match v with
         | Hardcoded => ret tt
         | Configured =>
             summary_message <~ format_summary_message current_state;
             _ <~ send_telegram_message cfg summary_message;
             ret tt
         end
     end) w = (Ret tt, w1)
    /\ file_write w1 = file_write w
    /\ trace w1
       = trace w
           ++ send_loop_events v cfg (clock w) (http_post w) (clock_reads w)
                (posts_done w) status_changed
           ++ summary_events v cfg w current_state status_changed).
  { destruct status_changed as [|change rest] eqn:Hsc.
    - exists w. unfold summary_events. destruct v; simpl;
        rewrite app_nil_r; repeat split.
    - rewrite <- Hsc. unfold bind at 1.
      destruct (send_loop_run v cfg status_changed w)
        as (w1 & Hrun & (O1 & O2 & O3 & O4) & Hsf & Hg & Hp & Hc & _).
      pose proof (send_loop_trace v cfg status_changed w) as Htr.
      rewrite Hrun in Htr |- *. cbn [snd] in Htr.
      assert (Hsum : summary_events v cfg w current_state status_changed
                = match v with
                  | Hardcoded => []
                  | Configured =>
                      send_events cfg
                        (summary_message current_state
                           (clock w (clock_reads w + length status_changed)%nat))
                        (http_post w (posts_done w + length status_changed)%nat)
                  end)
        by (rewrite Hsc; destruct v; reflexivity).
      rewrite Hsum. destruct v.
      + exists w1. rewrite app_nil_r. repeat split; assumption.
      + unfold bind at 1. rewrite format_summary_message_run.
        unfold now_strftime; cbn [snd]. unfold bind at 1.
        match goal with |- context [send_telegram_message cfg ?m ?w2] =>
          destruct (send_telegram_message_trace cfg m w2)
            as (w3 & Hrun3 & Htr3 & (P1 & P2 & P3 & P4) & _)
        end.
        rewrite Hrun3. exists w3.
        cbn [state_file http_get http_post file_write clock gets_done
          posts_done clock_reads trace] in Htr3, P1, P2, P3, P4.
        split; [reflexivity|]. split; [congruence|].
        rewrite Htr3, Htr, O4, Hc, O2, Hp, <- !app_assoc. reflexivity. }
  destruct Hsend as (w1 & Hrun1 & Hfw & Htr1).
  unfold main_tail. unfold bind at 1. rewrite Hrun1.
  destruct (save_state_run current_state w1) as (w2 & Hrun2 & _).
  pose proof (save_state_trace current_state w1) as Htr2.
  unfold bind at 1. rewrite Hrun2 in Htr2 |- *. cbn [snd] in Htr2.
  unfold logger, emit. cbn [snd trace].
  rewrite Htr2, Htr1, Hfw, <- !app_assoc. reflexivity.
Qed.

(** The events of a run, in order. *)
Lemma main_events (v : Variant) (cfg : Config) (w : World) :
  trace (snd (main v cfg w)) = trace w ++ run_events v cfg w.
Proof.
  rewrite main_split. unfold bind.
  destruct (main_loop_run v cfg w)
    as (w1 & Hloop & ((O1 & O2 & O3 & O4) & Hp & Hc & _) & _).
  pose proof (main_loop_trace v cfg w) as Htr.
  rewrite Hloop in Htr |- *. cbn [fst snd] in Htr |- *.
  rewrite main_tail_trace, Htr. unfold run_events, summary_events.
  rewrite O2, O3, O4, Hp, Hc, <- !app_assoc. reflexivity.
Qed.

Lemma errors_of_app (t1 t2 : list Event) :
  errors_of (t1 ++ t2) = errors_of t1 ++ errors_of t2.
Proof.
  induction t1 as [|ev t1 IH]; [reflexivity|].
  destruct ev as [[] msg| | |]; simpl; rewrite ?IH; reflexivity.
Qed.

Lemma warnings_of_app (t1 t2 : list Event) :
  warnings_of (t1 ++ t2) = warnings_of t1 ++ warnings_of t2.
Proof.
  induction t1 as [|ev t1 IH]; [reflexivity|].
  destruct ev as [[] msg| | |]; simpl; rewrite ?IH; reflexivity.
Qed.

Lemma gets_of_app (t1 t2 : list Event) :
  gets_of (t1 ++ t2) = gets_of t1 ++ gets_of t2.
Proof. apply filter_app. Qed.

Lemma posts_of_app (t1 t2 : list Event) :
  posts_of (t1 ++ t2) = posts_of t1 ++ posts_of t2.
Proof. apply filter_app. Qed.

Lemma sleeps_of_app (t1 t2 : list Event) :
  sleeps_of (t1 ++ t2) = sleeps_of t1 ++ sleeps_of t2.
Proof. apply filter_app. Qed.

(** ** Loading and saving the state *)

(** X1: [load_state] never raises and never touches the state file or the
    network.  It returns the dictionary of the file when the file parses and
    the empty dictionary when the file is missing or cannot be read; a file
    that cannot be read, and only that, is reported by one error in the
    log, carrying the text of the exception. *)
Theorem load_state_recovers (w : World) :
  exists previous_state w',
    load_state w = (Ret previous_state, w')
    /\ match state_file w with
       | Holds d => previous_state = d /\ trace w' = trace w
       | Absent => previous_state = [] /\ trace w' = trace w
       | Unreadable e =>
           previous_state = []
           /\ trace w'
              = trace w
                  ++ [Log ERROR (lit "Error loading state file: " ++ exn_str e)]
       end
    /\ state_file w' = state_file w
    /\ gets_done w' = gets_done w
    /\ posts_done w' = posts_done w.
Proof.
  destruct (load_state_run w) as (w' & Hrun & (_ & Hp & _) & Hsf & Hg).
  pose proof (load_state_trace w) as Htr. rewrite Hrun in Htr. cbn [snd] in Htr.
  exists (loaded (state_file w)), w'. split; [exact Hrun|].
  split; [|repeat split; assumption].
  unfold load_events in Htr.
  destruct (state_file w); rewrite ?app_nil_r in Htr; split; auto.
Qed.

(** X2: [save_state] never raises.  When the write succeeds the file holds
    exactly the given dictionary and nothing is logged; when [open] fails
    the file is left as it was; when [json.dump] fails the file is left
    unreadable; either failure is reported by one error in the log,
    carrying the text of the exception. *)
Theorem save_state_absorbs_failure (state : pydict) (w : World) :
  exists w',
    save_state state w = (Ret tt, w')
    /\ match file_write w with
       | WriteOk => state_file w' = Holds state /\ trace w' = trace w
       | OpenFails e =>
           state_file w' = state_file w
           /\ trace w'
              = trace w
                  ++ [Log ERROR (lit "Error saving state file: " ++ exn_str e)]
       | DumpFails e later =>
           state_file w' = Unreadable later
           /\ trace w'
              = trace w
                  ++ [Log ERROR (lit "Error saving state file: " ++ exn_str e)]
       end
    /\ gets_done w' = gets_done w
    /\ posts_done w' = posts_done w.
Proof.
  destruct (save_state_run state w) as (w' & Hrun & (_ & Hp & _) & Hsf & Hg).
  pose proof (save_state_trace state w) as Htr. rewrite Hrun in Htr.
  cbn [snd] in Htr. exists w'. split; [exact Hrun|].
  split; [|split; assumption].
  unfold save_events in Htr. unfold saved in Hsf.
  destruct (file_write w); rewrite ?app_nil_r in Htr; split; assumption.
Qed.

(** X3: a state file that a failed [json.dump] left behind is read as
    empty by the next [load_state], which reports it by one error carrying
    the text of the exception of the read. *)
Theorem save_then_load_after_failed_dump (state : pydict) (w w2 : World)
    (e later : Exn) :
  file_write w = DumpFails e later ->
  state_file w2 = state_file (snd (save_state state w)) ->
  fst (load_state w2) = Ret []
  /\ errors_of (trace (snd (load_state w2)))
     = errors_of (trace w2)
         ++ [lit "Error loading state file: " ++ exn_str later].
Proof.
  intros Hw Hf.
  destruct (save_state_run state w) as (w' & Hrun & _ & Hsf & _).
  rewrite Hrun in Hf. cbn [snd] in Hf. rewrite Hsf, Hw in Hf. simpl in Hf.
  destruct (load_state_run w2) as (w3 & Hload & _).
  rewrite load_state_trace, Hload, Hf. simpl.
  split; [reflexivity|]. rewrite errors_of_app. reflexivity.
Qed.

Lemma save_then_load_after_failed_dump_witness :
  file_write (example_world ok_200 ok_200 Absent (DumpFails read_only read_only))
  = DumpFails read_only read_only
  /\ fst (load_state
            (example_world ok_200 ok_200
               (Unreadable read_only) WriteOk)) = Ret [].
Proof.
  split; [reflexivity|].
  apply (save_then_load_after_failed_dump
           [(lit "https://a.test", true)]
           (example_world ok_200 ok_200 Absent (DumpFails read_only read_only))
           (example_world ok_200 ok_200 (Unreadable read_only) WriteOk)
           read_only read_only eq_refl eq_refl).
Defined.

(** ** The differ *)

Lemma detected_elem (previous_state : pydict)
    (checks : list (pystr * CheckResult)) (u : pystr) (is_up : bool)
    (msg : pystr) (code : option Z) :
  (u, is_up, msg, code) ∈ detected previous_state checks
  <-> (u, (is_up, msg, code)) ∈ checks
      /\ is_up <> dict_get previous_state u true.
Proof.
  induction checks as [|[u0 [[up0 msg0] code0]] rest IH]; simpl.
  - rewrite !elem_of_nil. tauto.
  - rewrite elem_of_app, IH, elem_of_cons.
    destruct (eqb up0 (dict_get previous_state u0 true)) eqn:Heq; simpl.
    + apply eqb_prop in Heq. rewrite elem_of_nil.
      split; [tauto|]. intros [[H|H] Hne]; [|tauto].
      injection H as -> -> -> ->. contradiction.
    + apply eqb_false_iff in Heq. rewrite list_elem_of_singleton.
      split.
      * intros [H|H]; [|tauto]. injection H as -> -> -> ->. tauto.
      * intros [[H|H] Hne]; [|tauto]. left. injection H as -> -> -> ->.
        reflexivity.
Qed.

Lemma checks_from_lookup (v : Variant) (cfg : Config)
    (get : nat -> result Response) (websites : list pystr) (u : pystr) :
  forall n i,
  websites !! i = Some u ->
  (u, classify v cfg (get (n + i)%nat)) ∈ checks_from v cfg get n websites.
Proof.
  induction websites as [|u0 rest IH]; intros n [|i] Hi; simpl in Hi;
    try discriminate; cbn [checks_from].
  - injection Hi as ->. rewrite Nat.add_0_r. apply elem_of_cons. left.
    reflexivity.
  - apply elem_of_cons. right.
    replace (n + S i)%nat with (S n + i)%nat by lia. apply IH, Hi.
Qed.

Lemma detected_length (previous_state : pydict)
    (checks : list (pystr * CheckResult)) :
  (length (detected previous_state checks) <= length checks)%nat.
Proof.
  induction checks as [|[u [[is_up msg] code]] rest IH]; simpl; [lia|].
  rewrite length_app.
  destruct (negb (eqb is_up (dict_get previous_state u true))); simpl.
  - apply le_n_S, IH.
  - apply Nat.le_le_succ_r, IH.
Qed.

Lemma checks_from_length (v : Variant) (cfg : Config)
    (get : nat -> result Response) (websites : list pystr) :
  forall n, length (checks_from v cfg get n websites) = length websites.
Proof.
  induction websites as [|u rest IH]; intros n; simpl; [|rewrite IH];
    reflexivity.
Qed.

(** X4: the first loop queues a change record exactly for the checks whose
    up/down result differs from the previous status of the target, taken
    as up when the loaded state has no entry for it; a target whose status
    is unchanged is never queued, and there are at most as many records as
    configured targets. *)
Theorem change_iff_differs (v : Variant) (cfg : Config) (w : World) :
  exists current_state status_changed w1,
    main_loop v cfg w = (Ret (current_state, status_changed), w1)
    /\ (forall u is_up msg code,
          (u, is_up, msg, code) ∈ status_changed
          <-> exists i,
                WEBSITES cfg !! i = Some u
                /\ classify v cfg (http_get w (gets_done w + i)%nat)
                   = (is_up, msg, code)
                /\ is_up <> dict_get (loaded (state_file w)) u true)
    /\ (length status_changed <= length (WEBSITES cfg))%nat.
Proof.
  destruct (main_loop_run v cfg w) as (w1 & Hloop & _).
  eexists _, _, w1. split; [exact Hloop|]. split.
  - intros u is_up msg code. rewrite detected_elem. unfold checks_of. split.
    + intros [Hin Hne]. apply checks_from_elem in Hin as (i & Hi & Hc).
      exists i. split; [exact Hi|]. split; [symmetry; exact Hc|exact Hne].
    + intros (i & Hi & Hc & Hne). split; [|exact Hne].
      rewrite <- Hc. apply checks_from_lookup, Hi.
  - etransitivity; [apply detected_length|].
    unfold checks_of. rewrite checks_from_length. reflexivity.
Qed.

(** ** What a check result can be *)

Lemma classify_consistent (v : Variant) (cfg : Config)
    (reply : result Response) :
  forall is_up detail code,
  classify v cfg reply = (is_up, detail, code) ->
  (is_up = true <-> code = Some 200)
  /\ (is_up = true <-> detail = lit "OK").
Proof.
  intros is_up detail code.
  unfold classify, check_website, try_except, bind, requests_get,
    world_replying, isinstance; simpl.
  destruct reply as [response|[[] s]]; simpl.
  - destruct (status_code response =? 200) eqn:Hcode; simpl;
      intros H; injection H as <- <- <-.
    + apply Z.eqb_eq in Hcode. rewrite Hcode. split; split; reflexivity.
    + apply Z.eqb_neq in Hcode.
      split; split; try discriminate.
      intros H; injection H as H; contradiction.
  - intros H; injection H as <- <- <-. split; split; discriminate.
  - destruct (contains (lit "ConnectionError") s);
      [|destruct (contains (lit "SSLError") s)];
      intros H; injection H as <- <- <-; split; split; discriminate.
  - intros H; injection H as <- <- <-. split; split; discriminate.
Qed.

(** X5: in every result of [check_website] the three fields agree: the
    site is up exactly when the status code is 200, and exactly when the
    detail is "OK"; no failure is ever reported with the detail "OK" or
    the code 200. *)
Theorem check_result_fields_agree (v : Variant) (cfg : Config) (url : pystr)
    (w : World) :
  exists is_up detail code,
    fst (check_website v cfg url w) = Ret (is_up, detail, code)
    /\ (is_up = true <-> code = Some 200)
    /\ (is_up = true <-> detail = lit "OK").
Proof.
  rewrite check_website_run. cbn [fst].
  destruct (classify v cfg (http_get w (gets_done w)))
    as [[is_up detail] code] eqn:Hc.
  exists is_up, detail, code. split; [reflexivity|].
  exact (classify_consistent v cfg _ is_up detail code Hc).
Qed.

(** X6: every change record that reports a site as up carries the detail
    "OK" and the status code 200, so the message posted for it always
    reads "Status code: 200" (never "Status code: None"). *)
Theorem up_records_show_200 (v : Variant) (cfg : Config) (w : World) :
  exists current_state status_changed w1,
    main_loop v cfg w = (Ret (current_state, status_changed), w1)
    /\ forall u msg code,
         (u, true, msg, code) ∈ status_changed ->
         msg = lit "OK" /\ code = Some 200
         /\ forall timestamp,
              status_message v (u, true, msg, code) timestamp
              = emoji_up v ++ lit " <b>" ++ u ++ lit "</b>" ++ nl
                  ++ lit "Status: <b>UP</b>" ++ nl
                  ++ lit "Status code: 200" ++ nl
                  ++ lit "Time: " ++ timestamp.
Proof.
  destruct (main_loop_run v cfg w) as (w1 & Hloop & _).
  eexists _, _, w1. split; [exact Hloop|].
  intros u msg code Hin. apply detected_elem in Hin as [Hin _].
  unfold checks_of in Hin. apply checks_from_elem in Hin as (i & _ & Hc).
  symmetry in Hc. apply classify_consistent in Hc as [Hcode Hdetail].
  assert (Hc200 : code = Some 200) by (apply Hcode; reflexivity).
  assert (Hok : msg = lit "OK") by (apply Hdetail; reflexivity).
  subst code msg. split; [reflexivity|]. split; [reflexivity|].
  intros timestamp.
  unfold status_message, format_status_message, bind, now_strftime, ret.
  cbn [fst snd clock clock_reads world_at].
  change (lit "Status code: " ++ str_of_opt_int (Some 200))
    with (lit "Status code: 200").
  rewrite <- !app_assoc. reflexivity.
Qed.

(** ** Requests, sleeps and log entries of a run *)

Lemma loop_events_gets (v : Variant) (cfg : Config) (previous_state : pydict)
    (checks : list (pystr * CheckResult)) :
  gets_of (loop_events v cfg previous_state checks)
  = map (fun u => Get u (TIMEOUT_SECONDS cfg) true (headers v)) checks.*1.
Proof.
  induction checks as [|[u [[is_up msg] code]] rest IH]; [reflexivity|].
  cbn [loop_events]. rewrite gets_of_app, IH. unfold check_events.
  destruct (negb (eqb is_up (dict_get previous_state u true))); reflexivity.
Qed.

Lemma loop_events_quiet (v : Variant) (cfg : Config) (previous_state : pydict)
    (checks : list (pystr * CheckResult)) :
  posts_of (loop_events v cfg previous_state checks) = []
  /\ sleeps_of (loop_events v cfg previous_state checks) = []
  /\ errors_of (loop_events v cfg previous_state checks) = [].
Proof.
  induction checks as [|[u [[is_up msg] code]] rest (IH1 & IH2 & IH3)];
    [repeat split|].
  cbn [loop_events]. rewrite posts_of_app, sleeps_of_app, errors_of_app.
  rewrite IH1, IH2, IH3. unfold check_events.
  destruct (negb (eqb is_up (dict_get previous_state u true))); repeat split.
Qed.

Lemma loop_events_warnings (v : Variant) (cfg : Config)
    (previous_state : pydict) (checks : list (pystr * CheckResult)) :
  warnings_of (loop_events v cfg previous_state checks)
  = map change_warning (detected previous_state checks).
Proof.
  induction checks as [|[u [[is_up msg] code]] rest IH]; [reflexivity|].
  cbn [loop_events detected]. rewrite warnings_of_app, map_app, IH.
  unfold check_events.
  destruct (negb (eqb is_up (dict_get previous_state u true))); reflexivity.
Qed.

Lemma send_events_projections (cfg : Config) (message : pystr)
    (reply : result Response) :
  gets_of (send_events cfg message reply) = []
  /\ sleeps_of (send_events cfg message reply) = []
  /\ posts_of (send_events cfg message reply) = [post_request cfg message]
  /\ warnings_of (send_events cfg message reply) = []
  /\ length (errors_of (send_events cfg message reply))
     = if delivered reply then 0%nat else 1%nat.
Proof.
  unfold send_events, delivered.
  destruct reply as [response|e]; [destruct (status_code response =? 200)|];
    repeat split.
Qed.

Lemma send_loop_events_projections (v : Variant) (cfg : Config)
    (clk : nat -> pystr) (post : nat -> result Response)
    (status_changed : list ChangeRecord) :
  forall nc np,
  gets_of (send_loop_events v cfg clk post nc np status_changed) = []
  /\ sleeps_of (send_loop_events v cfg clk post nc np status_changed)
     = replicate (length status_changed) (Sleep 1)
  /\ posts_of (send_loop_events v cfg clk post nc np status_changed)
     = map (post_request cfg) (messages_from v clk nc status_changed)
  /\ warnings_of (send_loop_events v cfg clk post nc np status_changed) = []
  /\ length (errors_of (send_loop_events v cfg clk post nc np status_changed))
     = failures post np (length status_changed).
Proof.
  induction status_changed as [|change rest IH]; intros nc np;
    [repeat split|].
  cbn [send_loop_events messages_from length failures replicate map].
  destruct (IH (S nc) (S np)) as (I1 & I2 & I3 & I4 & I5).
  destruct (send_events_projections cfg (status_message v change (clk nc))
              (post np)) as (S1 & S2 & S3 & S4 & S5).
  rewrite !gets_of_app, !sleeps_of_app, !posts_of_app, !warnings_of_app,
    !errors_of_app, !length_app.
  rewrite I1, I2, I3, I4, I5, S1, S2, S3, S4, S5.
  repeat split.
Qed.

Lemma summary_events_projections (v : Variant) (cfg : Config) (w : World)
    (current_state : pydict) (status_changed : list ChangeRecord) :
  gets_of (summary_events v cfg w current_state status_changed) = []
  /\ sleeps_of (summary_events v cfg w current_state status_changed) = []
  /\ posts_of (summary_events v cfg w current_state status_changed)
     = map (post_request cfg)
         (summary_part v current_state status_changed
            (clock w (clock_reads w + length status_changed)%nat))
  /\ warnings_of (summary_events v cfg w current_state status_changed) = []
  /\ length (errors_of (summary_events v cfg w current_state status_changed))
     = failures (http_post w) (posts_done w + length status_changed)
         (length (summary_part v current_state status_changed
                    (clock w (clock_reads w + length status_changed)%nat))).
Proof.
  unfold summary_events, summary_part.
  destruct v; [repeat split|].
  destruct status_changed as [|change rest]; [repeat split|].
  match goal with |- context [send_events cfg ?m ?r] =>
    destruct (send_events_projections cfg m r) as (S1 & S2 & S3 & S4 & S5)
  end.
  rewrite S1, S2, S3, S4, S5. cbn [length failures map].
  rewrite Nat.add_0_r. repeat split.
Qed.

(** X7: a run makes exactly one GET request per configured target, in the
    order of the list, each with the configured timeout, redirects
    followed and the headers of the script; it makes no other GET (no
    retry, none while notifying or saving). *)
Theorem one_get_per_target (v : Variant) (cfg : Config) (w : World) :
  gets_of (trace (snd (main v cfg w)))
  = gets_of (trace w)
      ++ map (fun u => Get u (TIMEOUT_SECONDS cfg) true (headers v))
           (WEBSITES cfg).
Proof.
  rewrite main_events. unfold run_events.
  rewrite !gets_of_app, loop_events_gets.
  destruct (send_loop_events_projections v cfg (clock w) (http_post w)
              (detected (loaded (state_file w)) (checks_of v cfg w))
              (clock_reads w) (posts_done w)) as (H1 & _).
  destruct (summary_events_projections v cfg w
              (built_state [] (checks_of v cfg w))
              (detected (loaded (state_file w)) (checks_of v cfg w)))
    as (H2 & _).
  rewrite H1, H2. unfold checks_of at 1. rewrite checks_from_urls.
  destruct (state_file w), (file_write w); simpl; rewrite ?app_nil_r;
    reflexivity.
Qed.

Lemma calls_of_app (t1 t2 : list Event) :
  calls_of (t1 ++ t2) = calls_of t1 ++ calls_of t2.
Proof. apply filter_app. Qed.

Lemma loop_events_calls (v : Variant) (cfg : Config) (previous_state : pydict)
    (checks : list (pystr * CheckResult)) :
  calls_of (loop_events v cfg previous_state checks) = [].
Proof.
  induction checks as [|[u [[is_up msg] code]] rest IH]; [reflexivity|].
  cbn [loop_events]. rewrite calls_of_app, IH. unfold check_events.
  destruct (negb (eqb is_up (dict_get previous_state u true))); reflexivity.
Qed.

Lemma send_events_calls (cfg : Config) (message : pystr)
    (reply : result Response) :
  calls_of (send_events cfg message reply) = [post_request cfg message].
Proof.
  unfold send_events.
  destruct reply as [response|e]; [destruct (status_code response =? 200)|];
    reflexivity.
Qed.

Lemma send_loop_events_calls (v : Variant) (cfg : Config)
    (clk : nat -> pystr) (post : nat -> result Response)
    (status_changed : list ChangeRecord) :
  forall nc np,
  calls_of (send_loop_events v cfg clk post nc np status_changed)
  = concat (map (fun message => [post_request cfg message; Sleep 1])
              (messages_from v clk nc status_changed)).
Proof.
  induction status_changed as [|change rest IH]; intros nc np;
    [reflexivity|].
  cbn [send_loop_events messages_from map concat].
  rewrite !calls_of_app, send_events_calls, IH. reflexivity.
Qed.

Lemma summary_events_calls (v : Variant) (cfg : Config) (w : World)
    (current_state : pydict) (status_changed : list ChangeRecord) :
  calls_of (summary_events v cfg w current_state status_changed)
  = map (post_request cfg)
      (summary_part v current_state status_changed
         (clock w (clock_reads w + length status_changed)%nat)).
Proof.
  unfold summary_events, summary_part.
  destruct v; [reflexivity|].
  destruct status_changed as [|change rest]; [reflexivity|].
  rewrite send_events_calls. reflexivity.
Qed.

(** X8: a run sleeps one second after each per-site message and at no
    other time.  Among the POSTs and sleeps of a run, in the order they
    were made, each per-site POST is followed at once by a sleep of 1, and
    the POST of the summary, when there is one, comes last with no sleep
    after it; so there are as many sleeps as change records, and none when
    nothing changed. *)
Theorem one_sleep_per_change (v : Variant) (cfg : Config) (w : World) :
  exists current_state status_changed w1,
    main_loop v cfg w = (Ret (current_state, status_changed), w1)
    /\ calls_of (trace (snd (main v cfg w)))
       = calls_of (trace w)
           ++ concat
                (map (fun message =>
                        [ Post (lit "https://api.telegram.org/bot"
                                  ++ TELEGRAM_BOT_TOKEN cfg
                                  ++ lit "/sendMessage")
                               (TELEGRAM_CHAT_ID cfg) message (lit "HTML") 10;
                          Sleep 1 ])
                   (messages_from v (clock w) (clock_reads w) status_changed))
           ++ map (fun message =>
                     Post (lit "https://api.telegram.org/bot"
                             ++ TELEGRAM_BOT_TOKEN cfg ++ lit "/sendMessage")
                          (TELEGRAM_CHAT_ID cfg) message (lit "HTML") 10)
                (summary_part v current_state status_changed
                   (clock w (clock_reads w + length status_changed)%nat))
    /\ sleeps_of (trace (snd (main v cfg w)))
       = sleeps_of (trace w) ++ replicate (length status_changed) (Sleep 1).
Proof.
  destruct (main_loop_run v cfg w) as (w1 & Hloop & _).
  eexists _, _, w1. split; [exact Hloop|].
  rewrite main_events. unfold run_events. split.
  - rewrite !calls_of_app, loop_events_calls, send_loop_events_calls,
      summary_events_calls.
    destruct (state_file w), (file_write w); simpl; rewrite ?app_nil_r;
      reflexivity.
  - rewrite !sleeps_of_app.
    destruct (loop_events_quiet v cfg (loaded (state_file w))
                (checks_of v cfg w)) as (_ & H0 & _).
    destruct (send_loop_events_projections v cfg (clock w) (http_post w)
                (detected (loaded (state_file w)) (checks_of v cfg w))
                (clock_reads w) (posts_done w)) as (_ & H1 & _).
    destruct (summary_events_projections v cfg w
                (built_state [] (checks_of v cfg w))
                (detected (loaded (state_file w)) (checks_of v cfg w)))
      as (_ & H2 & _).
    rewrite H0, H1, H2.
    destruct (state_file w), (file_write w); simpl; rewrite ?app_nil_r;
      reflexivity.
Qed.

(** X9: every POST of a run goes to the sendMessage endpoint of the
    configured bot, with the configured chat id, parse mode "HTML" and a
    timeout of 10 seconds; the texts posted are the per-site messages of
    the change records, in order, followed by the summary when there is
    one. *)
Theorem posts_go_to_the_bot (v : Variant) (cfg : Config) (w : World) :
  exists current_state status_changed w1,
    main_loop v cfg w = (Ret (current_state, status_changed), w1)
    /\ posts_of (trace (snd (main v cfg w)))
       = posts_of (trace w)
           ++ map (fun message =>
                     Post (lit "https://api.telegram.org/bot"
                             ++ TELEGRAM_BOT_TOKEN cfg ++ lit "/sendMessage")
                          (TELEGRAM_CHAT_ID cfg) message (lit "HTML") 10)
                (messages_from v (clock w) (clock_reads w) status_changed
                   ++ summary_part v current_state status_changed
                        (clock w (clock_reads w + length status_changed)%nat)).
Proof.
  destruct (main_loop_run v cfg w) as (w1 & Hloop & _).
  eexists _, _, w1. split; [exact Hloop|].
  rewrite main_events. unfold run_events. rewrite !posts_of_app.
  destruct (loop_events_quiet v cfg (loaded (state_file w)) (checks_of v cfg w))
    as (H0 & _).
  destruct (send_loop_events_projections v cfg (clock w) (http_post w)
              (detected (loaded (state_file w)) (checks_of v cfg w))
              (clock_reads w) (posts_done w)) as (_ & _ & H1 & _).
  destruct (summary_events_projections v cfg w
              (built_state [] (checks_of v cfg w))
              (detected (loaded (state_file w)) (checks_of v cfg w)))
    as (_ & _ & H2 & _).
  rewrite H0, H1, H2, map_app.
  destruct (state_file w), (file_write w); simpl; rewrite ?app_nil_r;
    reflexivity.
Qed.

(** X10: every error in the log of a run stands for one failure the run
    absorbed: one if the state file could not be read, one for each send
    that was not delivered, one if the state file could not be written.
    A site that is down is never logged as an error. *)
Theorem errors_are_absorbed_failures (v : Variant) (cfg : Config) (w : World) :
  exists current_state status_changed w1,
    main_loop v cfg w = (Ret (current_state, status_changed), w1)
    /\ length (errors_of (trace (snd (main v cfg w))))
       = (length (errors_of (trace w))
          + match state_file w with Unreadable _ => 1 | _ => 0 end
          + failures (http_post w) (posts_done w)
              (length status_changed
               + length (summary_part v current_state status_changed
                           (clock w (clock_reads w + length status_changed)%nat)))
          + match file_write w with WriteOk => 0 | _ => 1 end)%nat.
Proof.
  destruct (main_loop_run v cfg w) as (w1 & Hloop & _).
  eexists _, _, w1. split; [exact Hloop|].
  rewrite main_events. unfold run_events.
  rewrite !errors_of_app, !length_app, failures_add.
  destruct (loop_events_quiet v cfg (loaded (state_file w)) (checks_of v cfg w))
    as (_ & _ & H0).
  destruct (send_loop_events_projections v cfg (clock w) (http_post w)
              (detected (loaded (state_file w)) (checks_of v cfg w))
              (clock_reads w) (posts_done w)) as (_ & _ & _ & _ & H1).
  destruct (summary_events_projections v cfg w
              (built_state [] (checks_of v cfg w))
              (detected (loaded (state_file w)) (checks_of v cfg w)))
    as (_ & _ & _ & _ & H2).
  rewrite H0, H1, H2.
  destruct (state_file w), (file_write w); simpl; lia.
Qed.

(** X11: a run logs one warning per change record, naming the target and
    its new status, in the order of the records; and its last log entry
    reports the number of change records. *)
Theorem warnings_and_count (v : Variant) (cfg : Config) (w : World) :
  exists current_state status_changed w1,
    main_loop v cfg w = (Ret (current_state, status_changed), w1)
    /\ warnings_of (trace (snd (main v cfg w)))
       = warnings_of (trace w)
           ++ map (fun change : ChangeRecord =>
                     lit "Status change detected for " ++ change.1.1.1
                       ++ lit ": " ++ up_or_down change.1.1.2)
                status_changed
    /\ last (trace (snd (main v cfg w)))
       = Some (Log INFO
                 (lit "Check completed. "
                    ++ str_of_int (Z.of_nat (length status_changed))
                    ++ lit " status changes detected.")).
Proof.
  destruct (main_loop_run v cfg w) as (w1 & Hloop & _).
  eexists _, _, w1. split; [exact Hloop|].
  rewrite main_events. unfold run_events. split.
  - rewrite !warnings_of_app, loop_events_warnings.
    destruct (send_loop_events_projections v cfg (clock w) (http_post w)
                (detected (loaded (state_file w)) (checks_of v cfg w))
                (clock_reads w) (posts_done w)) as (_ & _ & _ & H1 & _).
    destruct (summary_events_projections v cfg w
                (built_state [] (checks_of v cfg w))
                (detected (loaded (state_file w)) (checks_of v cfg w)))
      as (_ & _ & _ & H2 & _).
    rewrite H1, H2.
    destruct (state_file w), (file_write w); simpl; rewrite ?app_nil_r;
      reflexivity.
  - rewrite !app_assoc. apply last_snoc.
Qed.

(** ** The summary message *)

Lemma bullet_lines_flat (sites : list pystr) :
  forall message,
  bullet_lines sites message = message ++ concat (map bullet sites).
Proof.
  induction sites as [|site rest IH]; intros message;
    cbn [bullet_lines map concat].
  - rewrite app_nil_r. reflexivity.
  - rewrite IH. unfold bullet. rewrite <- !app_assoc. reflexivity.
Qed.

Lemma startswith_app_l (s prefix rest : pystr) :
  startswith s prefix = true -> startswith (s ++ rest) prefix = true.
Proof.
  revert s. induction prefix as [|p prefix IH]; intros s; [reflexivity|].
  destruct s as [|c s]; simpl; [discriminate|].
  destruct (N.eqb p c); [apply IH|discriminate].
Qed.

Lemma contains_app_l (needle s rest : pystr) :
  contains needle s = true -> contains needle (s ++ rest) = true.
Proof.
  induction s as [|c s IH]; simpl.
  - rewrite orb_false_r. destruct needle; [|discriminate].
    intros _. destruct rest; reflexivity.
  - intros H. apply orb_true_iff in H as [H|H].
    + apply (startswith_app_l (c :: s) needle rest) in H. simpl in H.
      rewrite H. reflexivity.
    + rewrite (IH H). apply orb_true_r.
Qed.

Lemma contains_app_r (needle before s : pystr) :
  contains needle s = true -> contains needle (before ++ s) = true.
Proof.
  intros H. induction before as [|c before IH]; [exact H|].
  simpl. rewrite IH. apply orb_true_r.
Qed.

Lemma contains_self (needle rest : pystr) :
  contains needle (needle ++ rest) = true.
Proof.
  destruct (needle ++ rest) eqn:Heq; simpl; rewrite <- ?Heq;
    rewrite startswith_app; reflexivity.
Qed.

Lemma contains_bullet (sites : list pystr) (u : pystr) :
  u ∈ sites -> contains (bullet u) (concat (map bullet sites)) = true.
Proof.
  induction sites as [|site rest IH]; intros Hin.
  - apply elem_of_nil in Hin. contradiction.
  - cbn [map concat]. apply elem_of_cons in Hin as [->|Hin].
    + apply contains_self.
    + apply contains_app_r, IH, Hin.
Qed.

Lemma summary_message_sections (current_state : pydict) (timestamp : pystr) :
  exists up_section down_section,
    summary_message current_state timestamp
    = [0x1f4ca%N] ++ lit " <b>Current Status Summary</b>" ++ nl ++ nl
        ++ up_section ++ down_section ++ lit "Time: " ++ timestamp
    /\ (forall u, (u, true) ∈ current_state ->
                  contains (bullet u) up_section = true)
    /\ (forall u, (u, false) ∈ current_state ->
                  contains (bullet u) down_section = true)
    /\ ((forall u, (u, true) ∉ current_state) -> up_section = [])
    /\ ((forall u, (u, false) ∉ current_state) -> down_section = []).
Proof.
  unfold summary_message, format_summary_message, bind, now_strftime, ret.
  cbn [fst snd clock clock_reads world_at].
  set (ups := (filter (fun kv : pystr * bool => kv.2 = true) current_state).*1).
  set (downs := (filter (fun kv : pystr * bool => kv.2 = false) current_state).*1).
  assert (Hups : forall u, (u, true) ∈ current_state -> u ∈ ups).
  { intros u Hin. unfold ups. apply list_elem_of_fmap. exists (u, true).
    split; [reflexivity|]. apply list_elem_of_filter. split; [reflexivity|exact Hin]. }
  assert (Hdowns : forall u, (u, false) ∈ current_state -> u ∈ downs).
  { intros u Hin. unfold downs. apply list_elem_of_fmap. exists (u, false).
    split; [reflexivity|]. apply list_elem_of_filter. split; [reflexivity|exact Hin]. }
  assert (Hups' : forall u, u ∈ ups -> (u, true) ∈ current_state).
  { intros u Hin. unfold ups in Hin. apply list_elem_of_fmap in Hin as ([u' b] & -> & Hin).
    apply list_elem_of_filter in Hin as [Hb Hin]. simpl in Hb. subst b. exact Hin. }
  assert (Hdowns' : forall u, u ∈ downs -> (u, false) ∈ current_state).
  { intros u Hin. unfold downs in Hin. apply list_elem_of_fmap in Hin as ([u' b] & -> & Hin).
    apply list_elem_of_filter in Hin as [Hb Hin]. simpl in Hb. subst b. exact Hin. }
  exists (match ups with
          | [] => []
          | _ :: _ => [0x2705%N] ++ lit " <b>UP:</b>" ++ nl
                        ++ concat (map bullet ups) ++ nl
          end),
         (match downs with
          | [] => []
          | _ :: _ => [0x1f534%N] ++ lit " <b>DOWN:</b>" ++ nl
                        ++ concat (map bullet downs) ++ nl
          end).
  split; [|split; [|split; [|split]]].
  - destruct ups as [|u0 ups0] eqn:Hu; destruct downs as [|d0 downs0] eqn:Hd;
      rewrite ?bullet_lines_flat, <- ?app_assoc; simpl;
      rewrite <- ?app_assoc; reflexivity.
  - intros u Hin. apply Hups in Hin. destruct ups as [|u0 ups0] eqn:Hu.
    + apply elem_of_nil in Hin. contradiction.
    + apply contains_app_r, contains_app_r, contains_app_r, contains_app_l.
      apply contains_bullet, Hin.
  - intros u Hin. apply Hdowns in Hin. destruct downs as [|d0 downs0] eqn:Hd.
    + apply elem_of_nil in Hin. contradiction.
    + apply contains_app_r, contains_app_r, contains_app_r, contains_app_l.
      apply contains_bullet, Hin.
  - intros Hnone. destruct ups as [|u0 ups0] eqn:Hu; [reflexivity|].
    exfalso. apply (Hnone u0), Hups', elem_of_cons. left. reflexivity.
  - intros Hnone. destruct downs as [|d0 downs0] eqn:Hd; [reflexivity|].
    exfalso. apply (Hnone d0), Hdowns', elem_of_cons. left. reflexivity.
Qed.

(** X12: the summary of a state is the header line, then under the
    heading "UP:" one line for each site that is up, then under the heading
    "DOWN:" one line for each site that is down, then the time line.  The
    sites of each section are exactly those of that status, in the order of
    the state; a section with no site is left out together with its
    heading. *)
Theorem summary_lists_every_site (current_state : pydict) (timestamp : pystr) :
  exists up_sites down_sites,
    summary_message current_state timestamp
    = [0x1f4ca%N] ++ lit " <b>Current Status Summary</b>" ++ nl ++ nl
        ++ match up_sites with
           | [] => []
           | _ :: _ =>
               [0x2705%N] ++ lit " <b>UP:</b>" ++ nl
                 ++ concat (map bullet up_sites) ++ nl
           end
        ++ match down_sites with
           | [] => []
           | _ :: _ =>
               [0x1f534%N] ++ lit " <b>DOWN:</b>" ++ nl
                 ++ concat (map bullet down_sites) ++ nl
           end
        ++ lit "Time: " ++ timestamp
    /\ (forall u, u ∈ up_sites <-> (u, true) ∈ current_state)
    /\ (forall u, u ∈ down_sites <-> (u, false) ∈ current_state)
    /\ sublist up_sites (dict_keys current_state)
    /\ sublist down_sites (dict_keys current_state).
Proof.
  exists (filter (fun kv : pystr * bool => kv.2 = true) current_state).*1,
         (filter (fun kv : pystr * bool => kv.2 = false) current_state).*1.
  split; [|split; [|split; [|split]]].
  - unfold summary_message, format_summary_message, bind, now_strftime, ret.
    cbn [fst snd clock clock_reads world_at].
    destruct ((filter (fun kv : pystr * bool => kv.2 = true) current_state).*1);
      destruct ((filter (fun kv : pystr * bool => kv.2 = false)
                   current_state).*1);
      rewrite ?bullet_lines_flat, <- ?app_assoc; simpl;
      rewrite <- ?app_assoc; reflexivity.
  - intros u. rewrite list_elem_of_fmap. split.
    + intros ([u' b] & -> & Hin). apply list_elem_of_filter in Hin as [Hb Hin].
      simpl in Hb. subst b. exact Hin.
    + intros Hin. exists (u, true). split; [reflexivity|].
      apply list_elem_of_filter. split; [reflexivity|exact Hin].
  - intros u. rewrite list_elem_of_fmap. split.
    + intros ([u' b] & -> & Hin). apply list_elem_of_filter in Hin as [Hb Hin].
      simpl in Hb. subst b. exact Hin.
    + intros Hin. exists (u, false). split; [reflexivity|].
      apply list_elem_of_filter. split; [reflexivity|exact Hin].
  - unfold dict_keys. apply fmap_sublist, sublist_filter.
  - unfold dict_keys. apply fmap_sublist, sublist_filter.
Qed.

Lemma dict_lookup_elem (d : pydict) (k : pystr) (b : bool) :
  dict_lookup d k = Some b -> (k, b) ∈ d.
Proof.
  induction d as [|[k0 b0] d IH]; simpl; [discriminate|].
  destruct (decide (k = k0)) as [->|Hne].
  - intros H; injection H as ->. apply elem_of_cons. left. reflexivity.
  - intros H. apply elem_of_cons. right. exact (IH H).
Qed.

Lemma summary_message_contains (current_state : pydict) (timestamp u : pystr) :
  u ∈ dict_keys current_state ->
  contains (bullet u) (summary_message current_state timestamp) = true.
Proof.
  intros Hin. apply dict_lookup_keys in Hin as [b Hb].
  apply dict_lookup_elem in Hb.
  destruct (summary_message_sections current_state timestamp)
    as (ups & downs & -> & Hup & Hdown & _).
  do 4 apply contains_app_r. destruct b.
  - apply contains_app_l, Hup, Hb.
  - apply contains_app_r, contains_app_l, Hdown, Hb.
Qed.

(** X13: in [website_monitor_config.py], a run that detects at least one
    change ends its posts with the summary, which has a line for every
    configured target; a run that detects no change posts nothing, not
    even a summary. *)
Theorem summary_covers_targets (cfg : Config) (w : World) :
  exists current_state status_changed w1,
    main_loop Configured cfg w = (Ret (current_state, status_changed), w1)
    /\ (status_changed <> [] ->
        exists summary,
          last (posted (trace (snd (main Configured cfg w)))) = Some summary
          /\ forall u, u ∈ WEBSITES cfg -> contains (bullet u) summary = true)
    /\ (status_changed = [] ->
        posted (trace (snd (main Configured cfg w))) = posted (trace w)).
Proof.
  destruct (main_run Configured cfg w)
    as (w1 & w' & Hloop & Hmain & _ & _ & Hpo & _).
  eexists _, _, w1. split; [exact Hloop|].
  rewrite Hmain. cbn [snd]. rewrite Hpo. unfold notices, summary_part.
  split.
  - intros Hne.
    destruct (detected (loaded (state_file w)) (checks_of Configured cfg w))
      as [|change rest] eqn:Hsc; [contradiction|].
    eexists. split.
    + rewrite !app_assoc. apply last_snoc.
    + intros u Hu. apply summary_message_contains, built_state_targets, Hu.
  - intros ->. simpl. apply app_nil_r.
Qed.

(** ** From one run to the next *)

(** X14: when a run has written the state file, the next run queues a
    change record exactly for the checks whose up/down result differs from
    the result of the last check of the same target in the run before. *)
Theorem next_run_reports_differences (v : Variant) (cfg : Config)
    (w1 w2 : World) :
  file_write w1 = WriteOk ->
  state_file w2 = state_file (snd (main v cfg w1)) ->
  exists current_state status_changed w2l,
    main_loop v cfg w2 = (Ret (current_state, status_changed), w2l)
    /\ forall u is_up msg code,
         (u, is_up, msg, code) ∈ status_changed
         <-> exists i j,
               WEBSITES cfg !! i = Some u
               /\ classify v cfg (http_get w2 (gets_done w2 + i)%nat)
                  = (is_up, msg, code)
               /\ WEBSITES cfg !! j = Some u
               /\ (u ∉ drop (S j) (WEBSITES cfg))
               /\ is_up
                  <> (classify v cfg (http_get w1 (gets_done w1 + j)%nat)).1.1.
Proof.
  intros Hok Hfile.
  destruct (main_run v cfg w1) as (w1l & w1' & _ & Hmain1 & _ & Hsf1 & _).
  rewrite Hmain1 in Hfile. cbn [snd] in Hfile.
  rewrite Hsf1, Hok in Hfile. simpl in Hfile.
  destruct (main_loop_run v cfg w2) as (w2l & Hloop2 & _).
  rewrite Hfile in Hloop2. simpl in Hloop2.
  eexists _, _, w2l. split; [exact Hloop2|].
  intros u is_up msg code. rewrite detected_elem. unfold dict_get. split.
  - intros [Hin Hne]. unfold checks_of in Hin.
    apply checks_from_elem in Hin as (i & Hi & Hc).
    destruct (last_occurrence (WEBSITES cfg) u (list_elem_of_lookup_2 _ _ _ Hi))
      as (j & Hj & Hlast).
    rewrite (built_state_lookup_at v cfg w1 j u Hj Hlast) in Hne.
    exists i, j. repeat split; try assumption. symmetry. exact Hc.
  - intros (i & j & Hi & Hc & Hj & Hlast & Hne).
    rewrite (built_state_lookup_at v cfg w1 j u Hj Hlast).
    split; [|exact Hne]. rewrite <- Hc. apply checks_from_lookup, Hi.
Qed.

Lemma next_run_reports_differences_witness :
  file_write (example_world error_500 ok_200 Absent WriteOk) = WriteOk
  /\ exists current_state status_changed w2l,
       main_loop Hardcoded example_cfg
         (example_world ok_200 ok_200
            (Holds [(lit "https://a.test", false)]) WriteOk)
       = (Ret (current_state, status_changed), w2l)
       /\ (lit "https://a.test", true, lit "OK", Some 200) ∈ status_changed.
Proof.
  split; [reflexivity|].
  destruct (next_run_reports_differences Hardcoded example_cfg
              (example_world error_500 ok_200 Absent WriteOk)
              (example_world ok_200 ok_200
                 (Holds [(lit "https://a.test", false)]) WriteOk)
              eq_refl eq_refl)
    as (cs & sc & w2l & Hloop & Hiff).
  exists cs, sc, w2l. split; [exact Hloop|].
  apply Hiff. exists 0%nat, 0%nat.
  split; [reflexivity|]. split; [reflexivity|]. split; [reflexivity|].
  split; [apply not_elem_of_nil|]. simpl. discriminate.
Defined.
